(** * DRV8711 stepper driver: register model and SPI transport

    A shallow embedding of [DRV8711.h].  The header declares two classes:

    - [DRV8711SPI], the transport: one chip-select pin and a 16-bit
      exchange over the host's SPI peripheral;
    - [DRV8711], the register model: six [uint16_t] shadow registers and
      setters that edit a bit field and flush the register through the
      transport.

    C++ integers are modelled as [Z].  A value stored in a [uint8_t] or
    [uint16_t] object (a parameter or a member) is reduced modulo 2^8 or
    2^16 at the point where the source stores it; the intermediate
    arithmetic is the arithmetic of [int], which is exact on every value
    these expressions reach (32-bit [int]).  The host platform (digital
    pins and the SPI peripheral) is a [World]: the trace of the calls made
    on it and the words the device will shift out. *)

From Stdlib Require Import ZArith List Lia Bool.
Import ListNotations.
Local Open Scope Z_scope.

(** ** C integer conversions *)

Module CInt.

Definition to_uint8 (x : Z) : Z := x mod 2 ^ 8.
Definition to_uint16 (x : Z) : Z := x mod 2 ^ 16.

Definition is_uint8 (x : Z) : Prop := 0 <= x < 2 ^ 8.
Definition is_uint16 (x : Z) : Prop := 0 <= x < 2 ^ 16.

(** Bits [hi:lo] of [x], read as a number. *)
Definition bits (hi lo x : Z) : Z :=
  Z.land (Z.shiftr x lo) (Z.ones (hi - lo + 1)).

End CInt.
Import CInt.

(** ** The host platform *)

Inductive PinLevel : Type := LOW | HIGH.

Inductive BitOrder : Type := LSBFIRST | MSBFIRST.

Inductive SPIMode : Type := SPI_MODE0 | SPI_MODE1 | SPI_MODE2 | SPI_MODE3.

Record SPISettings : Type := mkSPISettings {
  clock : Z;
  bitOrder : BitOrder;
  dataMode : SPIMode
}.

(** One call on the host platform. *)
Inductive BusEvent : Type :=
| DigitalWrite (pin : Z) (level : PinLevel)
| PinModeOutput (pin : Z)
| BeginTransaction (s : SPISettings)
| Transfer16 (word : Z)
| EndTransaction.

(** [trace] lists the calls made so far, oldest first; [miso] holds the
    words the device answers to the coming exchanges. *)
Record World : Type := mkWorld {
  trace : list BusEvent;
  miso : list Z
}.

(** Computations on the host platform. *)
Definition IO (A : Type) : Type := World -> A * World.

Definition ret {A : Type} (a : A) : IO A := fun w => (a, w).

Definition bind {A B : Type} (m : IO A) (f : A -> IO B) : IO B :=
  fun w => let (a, w') := m w in f a w'.

Notation "x <- m ;; k" := (bind m (fun x => k))
  (at level 61, m at next level, right associativity).
Notation "m ;; k" := (bind m (fun _ => k))
  (at level 61, right associativity).

Definition emit (e : BusEvent) : IO unit :=
  fun w => (tt, mkWorld (trace w ++ [e]) (miso w)).

Definition digitalWrite (pin : Z) (level : PinLevel) : IO unit :=
  emit (DigitalWrite pin level).

Definition pinMode_OUTPUT (pin : Z) : IO unit :=
  emit (PinModeOutput pin).

Module SPI.

Definition beginTransaction (s : SPISettings) : IO unit :=
  emit (BeginTransaction s).

Definition endTransaction : IO unit := emit EndTransaction.

(** Shifts [value] out and returns the word shifted in. *)
Definition transfer16 (value : Z) : IO Z :=
  fun w =>
    (to_uint16 (hd 0 (miso w)),
     mkWorld (trace w ++ [Transfer16 value]) (tl (miso w))).

End SPI.

(** The words shifted out to the device, oldest first. *)
Fixpoint wire_words (t : list BusEvent) : list Z :=
  match t with
  | [] => []
  | Transfer16 w :: t' => w :: wire_words t'
  | _ :: t' => wire_words t'
  end.

(** ** class DRV8711SPI *)

Record DRV8711SPI : Type := mkDRV8711SPI {
  ssPin : Z
}.

Module DRV8711SPI_.

Definition settings : SPISettings := mkSPISettings 500000 MSBFIRST SPI_MODE0.

Definition init (self : DRV8711SPI) (slaveSelectPin : Z)
  : IO DRV8711SPI :=
  let slaveSelectPin := to_uint8 slaveSelectPin in
  let self := mkDRV8711SPI slaveSelectPin in
  digitalWrite (ssPin self) LOW ;;
  pinMode_OUTPUT (ssPin self) ;;
  ret self.

Definition transfer (self : DRV8711SPI) (value : Z) : IO Z :=
  let value := to_uint16 value in
  SPI.transfer16 value.

Definition selectChip (self : DRV8711SPI) : IO unit :=
  digitalWrite (ssPin self) HIGH ;;
  SPI.beginTransaction settings.

Definition deselectChip (self : DRV8711SPI) : IO unit :=
  SPI.endTransaction ;;
  digitalWrite (ssPin self) LOW.

Definition readReg (self : DRV8711SPI) (address : Z) : IO Z :=
  let address := to_uint8 address in
  selectChip self ;;
  dataOut <- transfer self (Z.shiftl (Z.lor 0x8 address) 12) ;;
  deselectChip self ;;
  ret dataOut.

Definition writeReg (self : DRV8711SPI) (address value : Z) : IO unit :=
  let address := to_uint8 address in
  let value := to_uint16 value in
  selectChip self ;;
  _ <- transfer self (Z.lor (Z.shiftl address 12) value) ;;
  deselectChip self.

End DRV8711SPI_.

(** ** class DRV8711 *)

Record DRV8711 : Type := mkDRV8711 {
  ctrl : Z;
  torque : Z;
  off : Z;
  blank : Z;
  decay : Z;
  status : Z;
  driver : DRV8711SPI
}.

(** enum regAddr *)
Definition CTRL : Z := 0x00.
Definition TORQUE : Z := 0x01.
Definition OFF : Z := 0x02.
Definition BLANK : Z := 0x03.
Definition DECAY : Z := 0x04.
Definition STATUS : Z := 0x07.

(** enum isgain *)
Definition Gain5 : Z := 5.
Definition Gain10 : Z := 10.
Definition Gain20 : Z := 20.
Definition Gain40 : Z := 40.

(** enum deadTime *)
Definition DeadTime400ns : Z := 400.
Definition DeadTime450ns : Z := 450.
Definition DeadTime650ns : Z := 650.
Definition DeadTime850ns : Z := 850.

(** enum stepMode *)
Definition MicroStep256 : Z := 256.
Definition MicroStep128 : Z := 128.
Definition MicroStep64 : Z := 64.
Definition MicroStep32 : Z := 32.
Definition MicroStep16 : Z := 16.
Definition MicroStep8 : Z := 8.
Definition MicroStep4 : Z := 4.
Definition MicroStep2 : Z := 2.
Definition MicroStep1 : Z := 1.

Definition set_ctrl (self : DRV8711) (v : Z) : DRV8711 :=
  mkDRV8711 (to_uint16 v) (torque self) (off self) (blank self)
            (decay self) (status self) (driver self).

Definition set_torque (self : DRV8711) (v : Z) : DRV8711 :=
  mkDRV8711 (ctrl self) (to_uint16 v) (off self) (blank self)
            (decay self) (status self) (driver self).

Definition set_off (self : DRV8711) (v : Z) : DRV8711 :=
  mkDRV8711 (ctrl self) (torque self) (to_uint16 v) (blank self)
            (decay self) (status self) (driver self).

Definition set_driver (self : DRV8711) (d : DRV8711SPI) : DRV8711 :=
  mkDRV8711 (ctrl self) (torque self) (off self) (blank self)
            (decay self) (status self) d.

Module DRV8711_.

(** The default constructor.  The [driver] member is default-initialised:
    its pin is whatever the storage held, here the argument [drv]. *)
Definition new (drv : DRV8711SPI) : IO DRV8711 :=
  ret (mkDRV8711 0xC10 0x1FF 0x30 0x80 0x110 0x0 drv).

Definition init (self : DRV8711) (slaveSelectPin : Z) : IO DRV8711 :=
  let slaveSelectPin := to_uint8 slaveSelectPin in
  d <- DRV8711SPI_.init (driver self) slaveSelectPin ;;
  ret (set_driver self d).

Definition writeCTRL (self : DRV8711) : IO unit :=
  DRV8711SPI_.writeReg (driver self) CTRL (ctrl self).

Definition writeTORQUE (self : DRV8711) : IO unit :=
  DRV8711SPI_.writeReg (driver self) TORQUE (torque self).

Definition writeOFF (self : DRV8711) : IO unit :=
  DRV8711SPI_.writeReg (driver self) OFF (off self).

Definition writeBLANK (self : DRV8711) : IO unit :=
  DRV8711SPI_.writeReg (driver self) BLANK (blank self).

Definition writeDECAY (self : DRV8711) : IO unit :=
  DRV8711SPI_.writeReg (driver self) DECAY (decay self).

Definition writeSTATUS (self : DRV8711) : IO unit :=
  DRV8711SPI_.writeReg (driver self) STATUS (status self).

Definition enableDriver (self : DRV8711) : IO DRV8711 :=
  let self := set_ctrl self (Z.lor (ctrl self) 1) in
  writeCTRL self ;; ret self.

Definition disableDriver (self : DRV8711) : IO DRV8711 :=
  let self := set_ctrl self (Z.land (ctrl self) 0) in
  writeCTRL self ;; ret self.

Definition flipDirection (self : DRV8711) : IO DRV8711 :=
  let self := set_ctrl self (Z.lxor (ctrl self) (Z.shiftl 1 1)) in
  writeCTRL self ;; ret self.

Definition step (self : DRV8711) : IO DRV8711 :=
  let self := set_ctrl self (Z.lor (ctrl self) (Z.shiftl 1 2)) in
  writeCTRL self ;; ret self.

(** The [switch] of [setStepMode]: the code picked for [mode]. *)
Definition stepModeCode (mode : Z) : Z :=
  if mode =? MicroStep1 then 0 (* 0b0000 *)
  else if mode =? MicroStep2 then 1 (* 0b0001 *)
  else if mode =? MicroStep4 then 2 (* 0b0010 *)
  else if mode =? MicroStep8 then 3 (* 0b0011 *)
  else if mode =? MicroStep16 then 4 (* 0b0100 *)
  else if mode =? MicroStep32 then 5 (* 0b0101 *)
  else if mode =? MicroStep64 then 6 (* 0b0110 *)
  else if mode =? MicroStep128 then 7 (* 0b0111 *)
  else if mode =? MicroStep256 then 8 (* 0b1000 *)
  else 2 (* 0b0010, the initial value of sm *).

Definition setStepMode (self : DRV8711) (mode : Z) : IO DRV8711 :=
  let mode := to_uint16 mode in
  let sm := to_uint16 (stepModeCode mode) in
  let self :=
    set_ctrl self
      (Z.lor (Z.land (ctrl self) 0xF87 (* 0b111110000111 *)) (Z.shiftl sm 3)) in
  writeCTRL self ;; ret self.

Definition setExternalStallDetection (self : DRV8711) : IO DRV8711 :=
  let self := set_ctrl self (Z.lor (ctrl self) (Z.shiftl 1 7)) in
  writeCTRL self ;; ret self.

Definition setInternalStallDetection (self : DRV8711) : IO DRV8711 :=
  let self := set_ctrl self (Z.land (ctrl self) (Z.lnot (Z.shiftl 1 7))) in
  writeCTRL self ;; ret self.

(** The [switch] of [setGain]. *)
Definition gainCode (gain : Z) : Z :=
  if gain =? Gain5 then 0 (* 0b00 *)
  else if gain =? Gain10 then 1 (* 0b01 *)
  else if gain =? Gain20 then 2 (* 0b10 *)
  else if gain =? Gain40 then 3 (* 0b11 *)
  else 2 (* 0b10, the initial value of ag *).

Definition setGain (self : DRV8711) (gain : Z) : IO DRV8711 :=
  let gain := to_uint8 gain in
  let ag := to_uint16 (gainCode gain) in
  let self :=
    set_ctrl self
      (Z.lor (Z.land (ctrl self) 0xCFF (* 0b110011111111 *)) (Z.shiftl ag 8)) in
  writeCTRL self ;; ret self.

(** The [switch] of [setDeadTime]. *)
Definition deadTimeCode (dTime : Z) : Z :=
  if dTime =? DeadTime400ns then 0 (* 0b00 *)
  else if dTime =? DeadTime450ns then 1 (* 0b01 *)
  else if dTime =? DeadTime650ns then 2 (* 0b10 *)
  else if dTime =? DeadTime850ns then 3 (* 0b11 *)
  else 3 (* 0b11, the initial value of dt *).

Definition setDeadTime (self : DRV8711) (dTime : Z) : IO DRV8711 :=
  let dTime := to_uint8 dTime in
  let dt := to_uint16 (deadTimeCode dTime) in
  let self :=
    set_ctrl self
      (Z.lor (Z.land (ctrl self) 0xCFF (* 0b110011111111 *)) (Z.shiftl dt 10)) in
  writeCTRL self ;; ret self.

Definition setTorque (self : DRV8711) (torqueValue : Z) : IO DRV8711 :=
  let torqueValue := to_uint8 torqueValue in
  let self :=
    set_torque self
      (Z.lor (Z.land (torque self) 0x700 (* 0b11100000000 *)) torqueValue) in
  writeTORQUE self ;; ret self.

Definition setOffTime (self : DRV8711) (offTime : Z) : IO DRV8711 :=
  let offTime := to_uint8 offTime in
  let self :=
    set_off self
      (Z.lor (Z.land (off self) 0x100 (* 0b100000000 *)) offTime) in
  writeOFF self ;; ret self.

Definition setPWMMode (self : DRV8711) (pwmMode : Z) : IO DRV8711 :=
  let pwmMode := to_uint16 pwmMode in
  let self := set_off self (Z.lxor (off self) (Z.shiftl 1 8)) in
  writeOFF self ;; ret self.

End DRV8711_.

(** ** The shape of a write on the wire *)

(** The calls of one write transaction on pin [pin] carrying [word]. *)
Definition write_transaction (pin word : Z) : list BusEvent :=
  [ DigitalWrite pin HIGH;
    BeginTransaction DRV8711SPI_.settings;
    Transfer16 word;
    EndTransaction;
    DigitalWrite pin LOW ].

(** The word [writeReg] hands to [transfer], as [transfer] receives it. *)
Definition write_word (address value : Z) : Z :=
  to_uint16 (Z.lor (Z.shiftl (to_uint8 address) 12) (to_uint16 value)).

(** ** The code tables of the specification *)

(** Table 3 of the datasheet as the spec lists it: step mode, code. *)
Definition stepModeTable : list (Z * Z) :=
  [ (1, 0); (2, 1); (4, 2); (8, 3); (16, 4); (32, 5); (64, 6); (128, 7);
    (256, 8) ].

(** The gain table as the spec lists it: gain, code. *)
Definition gainTable : list (Z * Z) :=
  [ (5, 0); (10, 1); (20, 2); (40, 3) ].

(** ** Sequences of calls *)

(** One call of a public method of [DRV8711], with its argument. *)
Inductive Call : Type :=
| CallInit (slaveSelectPin : Z)
| CallEnableDriver
| CallDisableDriver
| CallFlipDirection
| CallStep
| CallSetStepMode (mode : Z)
| CallSetExternalStallDetection
| CallSetInternalStallDetection
| CallSetGain (gain : Z)
| CallSetDeadTime (dTime : Z)
| CallSetTorque (torqueValue : Z)
| CallSetOffTime (offTime : Z)
| CallSetPWMMode (pwmMode : Z).

Definition call (c : Call) (self : DRV8711) : IO DRV8711 :=
  match c with
  | CallInit pin => DRV8711_.init self pin
  | CallEnableDriver => DRV8711_.enableDriver self
  | CallDisableDriver => DRV8711_.disableDriver self
  | CallFlipDirection => DRV8711_.flipDirection self
  | CallStep => DRV8711_.step self
  | CallSetStepMode mode => DRV8711_.setStepMode self mode
  | CallSetExternalStallDetection => DRV8711_.setExternalStallDetection self
  | CallSetInternalStallDetection => DRV8711_.setInternalStallDetection self
  | CallSetGain gain => DRV8711_.setGain self gain
  | CallSetDeadTime dTime => DRV8711_.setDeadTime self dTime
  | CallSetTorque torqueValue => DRV8711_.setTorque self torqueValue
  | CallSetOffTime offTime => DRV8711_.setOffTime self offTime
  | CallSetPWMMode pwmMode => DRV8711_.setPWMMode self pwmMode
  end.

Fixpoint calls (cs : list Call) (self : DRV8711) : IO DRV8711 :=
  match cs with
  | [] => ret self
  | c :: cs' => self' <- call c self ;; calls cs' self'
  end.

(** [x] is a value of [k] bits. *)
Definition fits (k x : Z) : Prop := 0 <= x < 2 ^ k.

(** The shadows hold no bit above the fields the setters write. *)
Definition images_fit (self : DRV8711) : Prop :=
  fits 12 (ctrl self) /\ fits 11 (torque self) /\ fits 9 (off self).

(** The register a call flushes; [init] flushes none. *)
Definition target (c : Call) : option Z :=
  match c with
  | CallInit _ => None
  | CallSetTorque _ => Some TORQUE
  | CallSetOffTime _ | CallSetPWMMode _ => Some OFF
  | _ => Some CTRL
  end.

(** The shadow register kept for address [r]. *)
Definition shadow (r : Z) (self : DRV8711) : Z :=
  if r =? CTRL then ctrl self
  else if r =? TORQUE then torque self
  else if r =? OFF then off self
  else if r =? BLANK then blank self
  else if r =? DECAY then decay self
  else status self.

(** ** The chip-select protocol

    The discipline the comments of [writeReg] ask for: the chip is
    selected, one transaction is opened, one word is exchanged, the
    transaction is closed and the chip is deselected on the pin that
    selected it. *)

Inductive BusState : Type :=
| BusIdle
| BusSelected (pin : Z)
| BusOpen (pin : Z)
| BusSent (pin : Z)
| BusClosed (pin : Z).

Definition bus_step (st : BusState) (e : BusEvent) : option BusState :=
  match st, e with
  | BusIdle, DigitalWrite p HIGH => Some (BusSelected p)
  | BusIdle, DigitalWrite _ LOW => Some BusIdle
  | BusIdle, PinModeOutput _ => Some BusIdle
  | BusSelected p, BeginTransaction _ => Some (BusOpen p)
  | BusOpen p, Transfer16 _ => Some (BusSent p)
  | BusSent p, EndTransaction => Some (BusClosed p)
  | BusClosed p, DigitalWrite q LOW =>
      if p =? q then Some BusIdle else None
  | _, _ => None
  end.

Fixpoint bus_run (st : BusState) (t : list BusEvent) : option BusState :=
  match t with
  | [] => Some st
  | e :: t' =>
      match bus_step st e with
      | Some st' => bus_run st' t'
      | None => None
      end
  end.

(** The pins named by the chip-select events of a trace. *)
Fixpoint pins (t : list BusEvent) : list Z :=
  match t with
  | [] => []
  | DigitalWrite p _ :: t' => p :: pins t'
  | PinModeOutput p :: t' => p :: pins t'
  | _ :: t' => pins t'
  end.

(** A sequence of calls without [init]. *)
Definition no_init (cs : list Call) : Prop :=
  forall p, ~ In (CallInit p) cs.

(** ** Concrete states used in the examples *)

Definition w0 : World := mkWorld [] [].
Definition drv0 : DRV8711SPI := mkDRV8711SPI 10.

(** The object the constructor builds around [drv0]. *)
Definition fresh : DRV8711 :=
  mkDRV8711 0xC10 0x1FF 0x30 0x80 0x110 0x0 drv0.

(** ** Sanity checks of the embedding on concrete inputs *)

Example fresh_then_stepmode16_then_enable :
  let '(d, w) := (d <- DRV8711_.new drv0 ;;
                  d <- DRV8711_.setStepMode d 16 ;;
                  DRV8711_.enableDriver d) w0 in
  ctrl d = 0xC21 /\ wire_words (trace w) = [0xC20; 0xC21].
Proof. vm_compute. split; reflexivity. Qed.

Example new_is_fresh : fst (DRV8711_.new drv0 w0) = fresh.
Proof. reflexivity. Qed.

Example readReg_STATUS_word :
  wire_words (trace (snd (DRV8711SPI_.readReg drv0 STATUS w0))) = [0xF000].
Proof. vm_compute. reflexivity. Qed.

Example setStepMode_3_falls_back :
  ctrl (fst (DRV8711_.setStepMode fresh 3 w0)) = 0xC10.
Proof. vm_compute. reflexivity. Qed.

Example setGain_5_then_setStepMode_256 :
  ctrl (fst ((d <- DRV8711_.setGain fresh 5 ;;
              DRV8711_.setStepMode d 256) w0)) = 0xC40.
Proof. vm_compute. reflexivity. Qed.

Example disableDriver_zeroes_ctrl :
  ctrl (fst (DRV8711_.disableDriver fresh w0)) = 0
  /\ wire_words (trace (snd (DRV8711_.disableDriver fresh w0))) = [0].
Proof. vm_compute. split; reflexivity. Qed.

(** ** Bit-level lemmas *)

Lemma pow2_8 : 2 ^ 8 = 256.
Proof. reflexivity. Qed.

Lemma pow2_16 : 2 ^ 16 = 65536.
Proof. reflexivity. Qed.

Lemma to_uint16_id (x : Z) : is_uint16 x -> to_uint16 x = x.
Proof. intros H. apply Z.mod_small. exact H. Qed.

Lemma to_uint8_id (x : Z) : is_uint8 x -> to_uint8 x = x.
Proof. intros H. apply Z.mod_small. exact H. Qed.

Lemma to_uint16_range (x : Z) : is_uint16 (to_uint16 x).
Proof. apply Z.mod_pos_bound. reflexivity. Qed.

Lemma to_uint8_range (x : Z) : is_uint8 (to_uint8 x).
Proof. apply Z.mod_pos_bound. reflexivity. Qed.

(** Reduction modulo 2^k keeps the k low bits and clears the others. *)
Lemma testbit_trunc (x k i : Z) :
  0 <= k -> Z.testbit (x mod 2 ^ k) i = (i <? k) && Z.testbit x i.
Proof.
  intros Hk. destruct (Z.ltb_spec i k) as [Hlt | Hge]; simpl.
  - destruct (Z.neg_nonneg_cases i) as [Hneg | Hpos].
    + now rewrite !Z.testbit_neg_r.
    + now apply Z.mod_pow2_bits_low.
  - apply Z.mod_pow2_bits_high. lia.
Qed.

Lemma testbit_to_uint16 (x i : Z) :
  Z.testbit (to_uint16 x) i = (i <? 16) && Z.testbit x i.
Proof. apply testbit_trunc. lia. Qed.

Lemma testbit_to_uint8 (x i : Z) :
  Z.testbit (to_uint8 x) i = (i <? 8) && Z.testbit x i.
Proof. apply testbit_trunc. lia. Qed.

(** A number below 2^k has no bit at position k or above. *)
Lemma testbit_small (x k i : Z) :
  0 <= k -> 0 <= x < 2 ^ k -> k <= i -> Z.testbit x i = false.
Proof.
  intros Hk Hx Hi. rewrite <- (Z.mod_small x (2 ^ k)) by exact Hx.
  rewrite testbit_trunc by exact Hk.
  destruct (Z.ltb_spec i k); [lia | reflexivity].
Qed.

(** Conversely, a number with no bit at position k or above is below 2^k. *)
Lemma small_of_testbit (x k : Z) :
  0 <= k -> (forall i, k <= i -> Z.testbit x i = false) -> 0 <= x < 2 ^ k.
Proof.
  intros Hk H.
  assert (E : x mod 2 ^ k = x).
  { apply Z.bits_inj'. intros i Hi. rewrite testbit_trunc by exact Hk.
    destruct (Z.ltb_spec i k) as [Hlt | Hge]; simpl; [reflexivity|].
    symmetry. apply H. exact Hge. }
  rewrite <- E. apply Z.mod_pos_bound. apply Z.pow_pos_nonneg; lia.
Qed.

(** A field value of width k shifted to position s touches bits
    [s+k-1:s] only. *)
Lemma testbit_shiftl_outside (v s k i : Z) :
  0 <= s -> 0 <= k -> 0 <= v < 2 ^ k -> i < s \/ s + k <= i ->
  Z.testbit (Z.shiftl v s) i = false.
Proof.
  intros Hs Hk Hv Hi.
  destruct (Z.neg_nonneg_cases i) as [Hneg | Hpos].
  - now apply Z.testbit_neg_r.
  - rewrite Z.shiftl_spec by exact Hpos.
    destruct Hi as [Hlo | Hhi].
    + apply Z.testbit_neg_r. lia.
    + apply (testbit_small v k); lia.
Qed.

Lemma testbit_shiftl_inside (v s i : Z) :
  0 <= s -> s <= i -> Z.testbit (Z.shiftl v s) i = Z.testbit v (i - s).
Proof. intros Hs Hi. apply Z.shiftl_spec. lia. Qed.

Lemma testbit_bits (hi lo x n : Z) :
  0 <= lo <= hi -> 0 <= n ->
  Z.testbit (bits hi lo x) n = (n <=? hi - lo) && Z.testbit x (n + lo).
Proof.
  intros Hr Hn. unfold bits.
  rewrite Z.land_spec, Z.shiftr_spec by exact Hn.
  destruct (Z.leb_spec n (hi - lo)) as [Hle | Hgt].
  - rewrite Z.ones_spec_low by lia. now rewrite andb_true_r.
  - rewrite Z.ones_spec_high by lia. now rewrite andb_false_r.
Qed.

(** Two images that agree on bits [hi:lo] have the same field there. *)
Lemma bits_ext (hi lo x y : Z) :
  0 <= lo <= hi ->
  (forall i, lo <= i <= hi -> Z.testbit x i = Z.testbit y i) ->
  bits hi lo x = bits hi lo y.
Proof.
  intros Hr H. apply Z.bits_inj'. intros n Hn.
  rewrite !testbit_bits by assumption.
  destruct (Z.leb_spec n (hi - lo)) as [Hle | Hgt]; simpl; [|reflexivity].
  apply H. lia.
Qed.

(** A value of the field's width is read back from a field that holds
    exactly its bits. *)
Lemma bits_read (hi lo x v : Z) :
  0 <= lo <= hi -> 0 <= v < 2 ^ (hi - lo + 1) ->
  (forall i, lo <= i <= hi -> Z.testbit x i = Z.testbit v (i - lo)) ->
  bits hi lo x = v.
Proof.
  intros Hr Hv H. apply Z.bits_inj'. intros n Hn.
  rewrite testbit_bits by assumption.
  destruct (Z.leb_spec n (hi - lo)) as [Hle | Hgt]; simpl.
  - rewrite H by lia. f_equal. lia.
  - symmetry. apply (testbit_small v (hi - lo + 1)); lia.
Qed.

(** Splits a bit index known to lie in [0,16) into its sixteen values. *)
Ltac each_bit i :=
  let C := fresh "C" in
  assert (C : i = 0 \/ i = 1 \/ i = 2 \/ i = 3 \/ i = 4 \/ i = 5 \/ i = 6
              \/ i = 7 \/ i = 8 \/ i = 9 \/ i = 10 \/ i = 11 \/ i = 12
              \/ i = 13 \/ i = 14 \/ i = 15) by lia;
  repeat (destruct C as [C | C]; [subst i |]); [.. | subst i].

(** The bits of a 16-bit constant, given as a test on the index. *)
Ltac const_bits :=
  let i := fresh "i" in
  intros i;
  destruct (Z.neg_nonneg_cases i);
  [ rewrite Z.testbit_neg_r by assumption;
    repeat match goal with
    | |- context [?a <=? ?b] => destruct (Z.leb_spec a b); try lia
    | |- context [?a <? ?b] => destruct (Z.ltb_spec a b); try lia
    end; reflexivity
  | destruct (Z_lt_le_dec i 16);
    [ each_bit i; reflexivity
    | rewrite (testbit_small _ 16 i) by lia;
      repeat match goal with
      | |- context [?a <=? ?b] => destruct (Z.leb_spec a b); try lia
      | |- context [?a <? ?b] => destruct (Z.ltb_spec a b); try lia
      end; reflexivity ] ].

(** 0b111110000111: bits [11:7] and [2:0]. *)
Lemma testbit_mask_stepmode :
  forall i, Z.testbit 0xF87 i =
            (0 <=? i) && (i <? 12) && negb ((3 <=? i) && (i <=? 6)).
Proof. const_bits. Qed.

(** 0b110011111111: bits [11:10] and [7:0]. *)
Lemma testbit_mask_gain :
  forall i, Z.testbit 0xCFF i =
            (0 <=? i) && (i <? 12) && negb ((8 <=? i) && (i <=? 9)).
Proof. const_bits. Qed.

(** 0b11100000000: bits [10:8]. *)
Lemma testbit_mask_torque :
  forall i, Z.testbit 0x700 i = (8 <=? i) && (i <=? 10).
Proof. const_bits. Qed.

(** 0b100000000: bit 8. *)
Lemma testbit_mask_off :
  forall i, Z.testbit 0x100 i = (i =? 8).
Proof.
  intros i. destruct (Z.eqb_spec i 8) as [-> | Hne]; [reflexivity|].
  change 0x100 with (Z.shiftl 1 8).
  destruct (Z.neg_nonneg_cases i) as [Hneg | Hpos].
  - now apply Z.testbit_neg_r.
  - rewrite Z.shiftl_spec by exact Hpos.
    destruct (Z_lt_le_dec i 8).
    + apply Z.testbit_neg_r. lia.
    + apply (testbit_small 1 1); lia.
Qed.

(** ** What one call does to the host platform *)

Lemma wire_words_app (s t : list BusEvent) :
  wire_words (s ++ t) = wire_words s ++ wire_words t.
Proof.
  induction s as [| e s IH]; simpl; [reflexivity|].
  destruct e; simpl; rewrite IH; reflexivity.
Qed.

Lemma writeReg_run (self : DRV8711SPI) (address value : Z) (w : World) :
  DRV8711SPI_.writeReg self address value w =
  (tt, mkWorld (trace w ++ write_transaction (ssPin self)
                                             (write_word address value))
               (tl (miso w))).
Proof.
  unfold DRV8711SPI_.writeReg, DRV8711SPI_.selectChip,
    DRV8711SPI_.deselectChip, DRV8711SPI_.transfer, SPI.beginTransaction,
    SPI.endTransaction, SPI.transfer16, digitalWrite, emit, bind,
    write_transaction, write_word.
  simpl. rewrite <- !app_assoc. reflexivity.
Qed.

Lemma write_word_uint16 (address value : Z) :
  is_uint16 (write_word address value).
Proof. apply to_uint16_range. Qed.

(** With a register address (3 bits) and a 16-bit value nothing is lost
    to the conversions. *)
Lemma write_word_exact (a v : Z) :
  0 <= a <= 7 -> is_uint16 v -> write_word a v = Z.lor (Z.shiftl a 12) v.
Proof.
  intros Ha Hv. unfold write_word.
  rewrite (to_uint8_id a) by (unfold is_uint8; rewrite pow2_8; lia).
  rewrite (to_uint16_id v) by exact Hv.
  apply to_uint16_id.
  apply small_of_testbit; [lia|]. intros i Hi.
  rewrite Z.lor_spec.
  rewrite (testbit_shiftl_outside a 12 3 i) by lia.
  rewrite (testbit_small v 16 i) by (try exact Hv; lia).
  reflexivity.
Qed.

(** Every setter of the register model has the shape
    "store the new image, then flush it". *)
Lemma flush_ctrl_run (self : DRV8711) (w : World) :
  (DRV8711_.writeCTRL self ;; ret self) w =
  (self, mkWorld (trace w ++ write_transaction (ssPin (driver self))
                               (write_word CTRL (ctrl self)))
                 (tl (miso w))).
Proof.
  unfold bind, DRV8711_.writeCTRL. rewrite writeReg_run. reflexivity.
Qed.

Lemma flush_torque_run (self : DRV8711) (w : World) :
  (DRV8711_.writeTORQUE self ;; ret self) w =
  (self, mkWorld (trace w ++ write_transaction (ssPin (driver self))
                               (write_word TORQUE (torque self)))
                 (tl (miso w))).
Proof.
  unfold bind, DRV8711_.writeTORQUE. rewrite writeReg_run. reflexivity.
Qed.

Lemma flush_off_run (self : DRV8711) (w : World) :
  (DRV8711_.writeOFF self ;; ret self) w =
  (self, mkWorld (trace w ++ write_transaction (ssPin (driver self))
                               (write_word OFF (off self)))
                 (tl (miso w))).
Proof.
  unfold bind, DRV8711_.writeOFF. rewrite writeReg_run. reflexivity.
Qed.

(** A shadow image is a 16-bit object, so flushing CTRL (address 0)
    puts the image itself on the wire. *)
Lemma write_word_CTRL (v : Z) : is_uint16 v -> write_word CTRL v = v.
Proof.
  intros Hv. rewrite write_word_exact by (unfold CTRL; try exact Hv; lia).
  unfold CTRL. rewrite Z.shiftl_0_l. apply Z.lor_0_l.
Qed.

(** ** The transport *)

(** C2, as the code has it.  For a register address [a] in [0,7] and a
    16-bit [v], [writeReg a v] shifts out exactly one word, [(a << 12) | v]:
    the value is not masked to its 12 payload bits.  That word is
    [(a << 12) | (v & 0xFFF)] whenever [v <= 0xFFF], and
    [writeReg TORQUE 0x0FF] shifts out [0x10FF]. *)
Theorem writeReg_wire_word :
  forall (self : DRV8711SPI) (a v : Z) (w : World),
    0 <= a <= 7 -> is_uint16 v ->
    wire_words (trace (snd (DRV8711SPI_.writeReg self a v w))) =
      wire_words (trace w) ++ [Z.lor (Z.shiftl a 12) v]
    /\ (v <= 0xFFF ->
        Z.lor (Z.shiftl a 12) v = Z.lor (Z.shiftl a 12) (Z.land v 0xFFF))
    /\ wire_words (trace (snd (DRV8711SPI_.writeReg self TORQUE 0x0FF w))) =
         wire_words (trace w) ++ [0x10FF].
Proof.
  intros self a v w Ha Hv. repeat split.
  - rewrite writeReg_run. simpl. rewrite wire_words_app. simpl.
    now rewrite write_word_exact.
  - intros Hle. f_equal. change 0xFFF with (Z.ones 12).
    rewrite Z.land_ones by lia. symmetry. apply Z.mod_small.
    destruct Hv as [Hv0 _]. change (2 ^ 12) with 4096. lia.
  - rewrite writeReg_run. simpl. rewrite wire_words_app. reflexivity.
Qed.

Lemma writeReg_wire_word_witness :
  (0 <= 1 <= 7) /\ is_uint16 0x0FF /\
  wire_words (trace (snd (DRV8711SPI_.writeReg drv0 1 0x0FF w0))) =
    wire_words (trace w0) ++ [Z.lor (Z.shiftl 1 12) 0x0FF].
Proof.
  assert (Ha : 0 <= 1 <= 7) by lia.
  assert (Hv : is_uint16 0x0FF) by (unfold is_uint16; rewrite pow2_16; lia).
  split; [exact Ha|]. split; [exact Hv|].
  exact (proj1 (writeReg_wire_word drv0 1 0x0FF w0 Ha Hv)).
Defined.

(** C2, as the claim states it, fails: a value with a bit above the
    payload reaches the wire unmasked and lands in the address nibble. *)
Lemma writeReg_masks_value_counterexample :
  wire_words (trace (snd (DRV8711SPI_.writeReg drv0 TORQUE 0x20FF w0))) =
    [0x30FF]
  /\ wire_words (trace (snd (DRV8711SPI_.writeReg drv0 TORQUE 0x20FF w0))) <>
       [Z.lor (Z.shiftl TORQUE 12) (Z.land 0x20FF 0xFFF)].
Proof.
  split.
  - vm_compute. reflexivity.
  - vm_compute. intros H. discriminate H.
Qed.

(** ** The register model *)

(** C8.  The constructor leaves the power-on-reset defaults in the shadow
    registers and makes no call on the host platform. *)
Theorem new_power_on_defaults :
  forall (drv : DRV8711SPI) (w : World),
    ctrl (fst (DRV8711_.new drv w)) = 0xC10
    /\ torque (fst (DRV8711_.new drv w)) = 0x1FF
    /\ off (fst (DRV8711_.new drv w)) = 0x30
    /\ blank (fst (DRV8711_.new drv w)) = 0x80
    /\ decay (fst (DRV8711_.new drv w)) = 0x110
    /\ status (fst (DRV8711_.new drv w)) = 0x0
    /\ snd (DRV8711_.new drv w) = w.
Proof. intros drv w. repeat split. Qed.

(** C3.  [enableDriver] sets bit 0 of CTRL and keeps every other bit
    (so 0xC20 becomes 0xC21); [disableDriver] zeroes the whole CTRL shadow,
    bit 0 included; each flushes the new shadow with one write transaction
    to register CTRL. *)
Theorem enableDriver_disableDriver_ctrl :
  forall (self : DRV8711) (w : World),
    is_uint16 (ctrl self) ->
    (Z.testbit (ctrl (fst (DRV8711_.enableDriver self w))) 0 = true
     /\ (forall i, i <> 0 ->
           Z.testbit (ctrl (fst (DRV8711_.enableDriver self w))) i =
           Z.testbit (ctrl self) i)
     /\ (ctrl self = 0xC20 ->
         ctrl (fst (DRV8711_.enableDriver self w)) = 0xC21)
     /\ trace (snd (DRV8711_.enableDriver self w)) =
          trace w ++
          write_transaction (ssPin (driver self))
            (Z.lor (Z.shiftl CTRL 12)
                   (ctrl (fst (DRV8711_.enableDriver self w)))))
    /\
    (ctrl (fst (DRV8711_.disableDriver self w)) = 0
     /\ Z.testbit (ctrl (fst (DRV8711_.disableDriver self w))) 0 = false
     /\ trace (snd (DRV8711_.disableDriver self w)) =
          trace w ++
          write_transaction (ssPin (driver self))
            (Z.lor (Z.shiftl CTRL 12)
                   (ctrl (fst (DRV8711_.disableDriver self w))))).
Proof.
  intros self w Hc.
  unfold DRV8711_.enableDriver, DRV8711_.disableDriver.
  rewrite !flush_ctrl_run.
  cbn [fst snd ctrl trace set_ctrl driver].
  rewrite !write_word_CTRL by apply to_uint16_range.
  unfold CTRL. rewrite Z.shiftl_0_l, !Z.lor_0_l, Z.land_0_r.
  split; [split; [|split; [|split]] | split; [|split]].
  - rewrite testbit_to_uint16, Z.lor_spec.
    change (Z.testbit 1 0) with true. now rewrite orb_true_r.
  - intros i Hi. rewrite testbit_to_uint16, Z.lor_spec.
    destruct (Z.neg_nonneg_cases i) as [Hneg | Hpos].
    + rewrite !Z.testbit_neg_r by exact Hneg. apply andb_false_r.
    + rewrite (testbit_small 1 1 i) by lia. rewrite orb_false_r.
      destruct (Z.ltb_spec i 16) as [Hlt | Hge]; [reflexivity|].
      simpl. symmetry. apply (testbit_small (ctrl self) 16 i); [lia | exact Hc | exact Hge].
  - intros E. rewrite E. reflexivity.
  - reflexivity.
  - reflexivity.
  - reflexivity.
  - reflexivity.
Qed.

Lemma enableDriver_disableDriver_ctrl_witness :
  is_uint16 0xC20 /\
  ctrl (fst (DRV8711_.enableDriver
               (mkDRV8711 0xC20 0x1FF 0x30 0x80 0x110 0x0 drv0) w0)) = 0xC21.
Proof.
  assert (Hc : is_uint16 0xC20) by (unfold is_uint16; rewrite pow2_16; lia).
  split; [exact Hc|].
  apply (enableDriver_disableDriver_ctrl
           (mkDRV8711 0xC20 0x1FF 0x30 0x80 0x110 0x0 drv0) w0 Hc).
  reflexivity.
Defined.

(** *** Replacing a field of a shadow register *)

(** The bits of [(x & mask) | (v << s)] stored in a 16-bit object, for a
    value [v] of [k] bits: inside [s+k-1:s] the old bit survives where the
    mask lets it through and is or-ed with the value's bit; outside, the
    old bit is and-ed with the mask. *)
Lemma testbit_field_update (x mask v s k i : Z) :
  0 <= s -> 0 <= k -> s + k <= 16 -> 0 <= v < 2 ^ k ->
  Z.testbit (to_uint16 (Z.lor (Z.land x mask) (Z.shiftl v s))) i =
  if (s <=? i) && (i <? s + k)
  then Z.testbit x i && Z.testbit mask i || Z.testbit v (i - s)
  else (i <? 16) && (Z.testbit x i && Z.testbit mask i).
Proof.
  intros Hs Hk Hw Hv.
  rewrite testbit_to_uint16, Z.lor_spec, Z.land_spec.
  destruct (Z.leb_spec s i) as [Hsi | Hsi]; simpl.
  - destruct (Z.ltb_spec i (s + k)) as [Hik | Hik].
    + rewrite testbit_shiftl_inside by assumption.
      destruct (Z.ltb_spec i 16); [reflexivity | lia].
    + rewrite (testbit_shiftl_outside v s k i) by (try assumption; lia).
      now rewrite orb_false_r.
  - rewrite (testbit_shiftl_outside v s k i) by (try assumption; lia).
    now rewrite orb_false_r.
Qed.

Lemma stepModeCode_range (m : Z) : 0 <= DRV8711_.stepModeCode m < 2 ^ 4.
Proof.
  unfold DRV8711_.stepModeCode. change (2 ^ 4) with 16.
  repeat match goal with
         | |- context [if ?b then _ else _] => destruct b
         end; lia.
Qed.

Lemma gainCode_range (g : Z) : 0 <= DRV8711_.gainCode g < 2 ^ 2.
Proof.
  unfold DRV8711_.gainCode. change (2 ^ 2) with 4.
  repeat match goal with
         | |- context [if ?b then _ else _] => destruct b
         end; lia.
Qed.

Lemma deadTimeCode_range (d : Z) : 0 <= DRV8711_.deadTimeCode d < 2 ^ 2.
Proof.
  unfold DRV8711_.deadTimeCode. change (2 ^ 2) with 4.
  repeat match goal with
         | |- context [if ?b then _ else _] => destruct b
         end; lia.
Qed.

Lemma small_code_uint16 (c k : Z) :
  0 <= k <= 16 -> 0 <= c < 2 ^ k -> to_uint16 c = c.
Proof.
  intros Hk Hc. apply to_uint16_id. unfold is_uint16.
  assert (2 ^ k <= 2 ^ 16) by (apply Z.pow_le_mono_r; lia). lia.
Qed.

Lemma setStepMode_run (self : DRV8711) (mode : Z) (w : World) :
  DRV8711_.setStepMode self mode w =
  (set_ctrl self
     (Z.lor (Z.land (ctrl self) 0xF87)
            (Z.shiftl (DRV8711_.stepModeCode (to_uint16 mode)) 3)),
   mkWorld
     (trace w ++
      write_transaction (ssPin (driver self))
        (Z.lor (Z.shiftl CTRL 12)
           (to_uint16
              (Z.lor (Z.land (ctrl self) 0xF87)
                 (Z.shiftl (DRV8711_.stepModeCode (to_uint16 mode)) 3)))))
     (tl (miso w))).
Proof.
  unfold DRV8711_.setStepMode. rewrite flush_ctrl_run.
  cbn [ctrl set_ctrl driver].
  rewrite write_word_CTRL by apply to_uint16_range.
  rewrite (small_code_uint16 _ 4) by (try apply stepModeCode_range; lia).
  reflexivity.
Qed.

Lemma setGain_run (self : DRV8711) (gain : Z) (w : World) :
  DRV8711_.setGain self gain w =
  (set_ctrl self
     (Z.lor (Z.land (ctrl self) 0xCFF)
            (Z.shiftl (DRV8711_.gainCode (to_uint8 gain)) 8)),
   mkWorld
     (trace w ++
      write_transaction (ssPin (driver self))
        (Z.lor (Z.shiftl CTRL 12)
           (to_uint16
              (Z.lor (Z.land (ctrl self) 0xCFF)
                 (Z.shiftl (DRV8711_.gainCode (to_uint8 gain)) 8)))))
     (tl (miso w))).
Proof.
  unfold DRV8711_.setGain. rewrite flush_ctrl_run.
  cbn [ctrl set_ctrl driver].
  rewrite write_word_CTRL by apply to_uint16_range.
  rewrite (small_code_uint16 _ 2) by (try apply gainCode_range; lia).
  reflexivity.
Qed.

Lemma setDeadTime_run (self : DRV8711) (dTime : Z) (w : World) :
  DRV8711_.setDeadTime self dTime w =
  (set_ctrl self
     (Z.lor (Z.land (ctrl self) 0xCFF)
            (Z.shiftl (DRV8711_.deadTimeCode (to_uint8 dTime)) 10)),
   mkWorld
     (trace w ++
      write_transaction (ssPin (driver self))
        (Z.lor (Z.shiftl CTRL 12)
           (to_uint16
              (Z.lor (Z.land (ctrl self) 0xCFF)
                 (Z.shiftl (DRV8711_.deadTimeCode (to_uint8 dTime)) 10)))))
     (tl (miso w))).
Proof.
  unfold DRV8711_.setDeadTime. rewrite flush_ctrl_run.
  cbn [ctrl set_ctrl driver].
  rewrite write_word_CTRL by apply to_uint16_range.
  rewrite (small_code_uint16 _ 2) by (try apply deadTimeCode_range; lia).
  reflexivity.
Qed.

(** Decides the comparisons of a goal on bit indices one at a time. *)
Ltac index_cases :=
  repeat match goal with
         | |- context [?a <=? ?b] =>
             destruct (Z.leb_spec a b); try (exfalso; lia)
         | |- context [?a <? ?b] =>
             destruct (Z.ltb_spec a b); try (exfalso; lia)
         end;
  cbn [andb orb negb];
  rewrite ?andb_true_r, ?andb_false_r, ?orb_false_r, ?orb_true_r.

(** The bits of CTRL after [setStepMode]. *)
Lemma setStepMode_testbit (self : DRV8711) (mode : Z) (w : World) (i : Z) :
  Z.testbit (ctrl (fst (DRV8711_.setStepMode self mode w))) i =
  if (3 <=? i) && (i <=? 6)
  then Z.testbit (DRV8711_.stepModeCode (to_uint16 mode)) (i - 3)
  else (0 <=? i) && (i <? 12) && Z.testbit (ctrl self) i.
Proof.
  rewrite setStepMode_run. cbn [fst ctrl set_ctrl].
  rewrite (testbit_field_update _ _ _ 3 4)
    by (try apply stepModeCode_range; lia).
  rewrite testbit_mask_stepmode.
  index_cases; try reflexivity; try lia.
Qed.

(** C4.  For a step mode of the table, [setStepMode] leaves the table's
    code in CTRL bits [6:3]; it keeps every other bit of the 12-bit CTRL
    register (and of the whole image when that held a 12-bit value, the
    case in every state the class can reach); a 16-bit mode outside the
    table gives the state that [setStepMode 4] gives, code 0b0010. *)
Theorem setStepMode_ctrl_field :
  forall (self : DRV8711) (m : Z) (w : World),
    is_uint16 m ->
    (forall c, In (m, c) stepModeTable ->
       bits 6 3 (ctrl (fst (DRV8711_.setStepMode self m w))) = c)
    /\ (forall i, 0 <= i <= 11 -> ~ 3 <= i <= 6 ->
          Z.testbit (ctrl (fst (DRV8711_.setStepMode self m w))) i =
          Z.testbit (ctrl self) i)
    /\ (0 <= ctrl self < 2 ^ 12 ->
        forall i, ~ 3 <= i <= 6 ->
          Z.testbit (ctrl (fst (DRV8711_.setStepMode self m w))) i =
          Z.testbit (ctrl self) i)
    /\ (~ In m (map fst stepModeTable) ->
        DRV8711_.setStepMode self m w = DRV8711_.setStepMode self 4 w
        /\ bits 6 3 (ctrl (fst (DRV8711_.setStepMode self m w))) = 2).
Proof.
  intros self m w Hm.
  assert (Hfield :
    bits 6 3 (ctrl (fst (DRV8711_.setStepMode self m w))) =
    DRV8711_.stepModeCode m).
  { apply bits_read; [lia | apply stepModeCode_range |].
    intros i Hi. rewrite setStepMode_testbit.
    rewrite (to_uint16_id m) by exact Hm.
    index_cases; reflexivity. }
  split; [|split; [|split]].
  - intros c Hin. rewrite Hfield. simpl in Hin.
    repeat (destruct Hin as [Hin | Hin];
            [injection Hin as <- <-; reflexivity|]).
    contradiction.
  - intros i Hi Hout. rewrite setStepMode_testbit.
    index_cases; reflexivity.
  - intros Hc i Hout. rewrite setStepMode_testbit.
    destruct (Z.neg_nonneg_cases i) as [Hneg | Hpos].
    + rewrite (Z.testbit_neg_r (ctrl self)) by exact Hneg.
      index_cases; reflexivity.
    + destruct (Z_lt_le_dec i 12) as [Hlt | Hge].
      * index_cases; reflexivity.
      * rewrite (testbit_small (ctrl self) 12 i) by (try exact Hc; lia).
        index_cases; reflexivity.
  - intros Hout.
    assert (Hcode : DRV8711_.stepModeCode m = 2).
    { unfold DRV8711_.stepModeCode, MicroStep1, MicroStep2, MicroStep4,
        MicroStep8, MicroStep16, MicroStep32, MicroStep64, MicroStep128,
        MicroStep256.
      simpl in Hout.
      repeat match goal with
             | |- context [?a =? ?b] =>
                 destruct (Z.eqb_spec a b); [exfalso; apply Hout; lia|]
             end.
      reflexivity. }
    split; [| now rewrite Hfield].
    rewrite !setStepMode_run. rewrite (to_uint16_id m) by exact Hm.
    rewrite Hcode. reflexivity.
Qed.

Lemma setStepMode_ctrl_field_witness :
  is_uint16 16 /\ In (16, 4) stepModeTable /\
  bits 6 3 (ctrl (fst (DRV8711_.setStepMode
                         fresh
                         16 w0))) = 4.
Proof.
  assert (Hm : is_uint16 16) by (unfold is_uint16; rewrite pow2_16; lia).
  assert (Hin : In (16, 4) stepModeTable)
    by (simpl; do 4 right; left; reflexivity).
  split; [exact Hm|]. split; [exact Hin|].
  exact (proj1 (setStepMode_ctrl_field
                  fresh 16 w0 Hm)
           4 Hin).
Defined.

(** The bits of CTRL after [setGain]. *)
Lemma setGain_testbit (self : DRV8711) (gain : Z) (w : World) (i : Z) :
  Z.testbit (ctrl (fst (DRV8711_.setGain self gain w))) i =
  if (8 <=? i) && (i <=? 9)
  then Z.testbit (DRV8711_.gainCode (to_uint8 gain)) (i - 8)
  else (0 <=? i) && (i <? 12) && Z.testbit (ctrl self) i.
Proof.
  rewrite setGain_run. cbn [fst ctrl set_ctrl].
  rewrite (testbit_field_update _ _ _ 8 2)
    by (try apply gainCode_range; lia).
  rewrite testbit_mask_gain.
  index_cases; try reflexivity; try lia.
Qed.

(** The bits of CTRL after [setDeadTime]: the mask is the one of
    [setGain], so bits [9:8] are cleared and bits [11:10] are or-ed. *)
Lemma setDeadTime_testbit (self : DRV8711) (dTime : Z) (w : World) (i : Z) :
  Z.testbit (ctrl (fst (DRV8711_.setDeadTime self dTime w))) i =
  if (10 <=? i) && (i <=? 11)
  then Z.testbit (ctrl self) i
       || Z.testbit (DRV8711_.deadTimeCode (to_uint8 dTime)) (i - 10)
  else (0 <=? i) && (i <? 8) && Z.testbit (ctrl self) i.
Proof.
  rewrite setDeadTime_run. cbn [fst ctrl set_ctrl].
  rewrite (testbit_field_update _ _ _ 10 2)
    by (try apply deadTimeCode_range; lia).
  rewrite testbit_mask_gain.
  index_cases; try reflexivity; try lia.
Qed.

(** No 8-bit argument matches a [case] label of [setDeadTime]. *)
Lemma deadTimeCode_uint8 (d : Z) :
  DRV8711_.deadTimeCode (to_uint8 d) = 3.
Proof.
  pose proof (to_uint8_range d) as Hd. unfold is_uint8 in Hd.
  rewrite pow2_8 in Hd.
  unfold DRV8711_.deadTimeCode, DeadTime400ns, DeadTime450ns, DeadTime650ns,
    DeadTime850ns.
  repeat match goal with
         | |- context [?a =? ?b] => destruct (Z.eqb_spec a b); [lia|]
         end.
  reflexivity.
Qed.

(** C5.  For a gain of the table, [setGain] leaves the table's code in
    CTRL bits [9:8]; it keeps every other bit of the 12-bit CTRL register
    (and of the whole image when that held a 12-bit value); an 8-bit gain
    outside the table gives the state that [setGain 20] gives. *)
Theorem setGain_ctrl_field :
  forall (self : DRV8711) (g : Z) (w : World),
    is_uint8 g ->
    (forall c, In (g, c) gainTable ->
       bits 9 8 (ctrl (fst (DRV8711_.setGain self g w))) = c)
    /\ (forall i, 0 <= i <= 11 -> ~ 8 <= i <= 9 ->
          Z.testbit (ctrl (fst (DRV8711_.setGain self g w))) i =
          Z.testbit (ctrl self) i)
    /\ (0 <= ctrl self < 2 ^ 12 ->
        forall i, ~ 8 <= i <= 9 ->
          Z.testbit (ctrl (fst (DRV8711_.setGain self g w))) i =
          Z.testbit (ctrl self) i)
    /\ (~ In g (map fst gainTable) ->
        DRV8711_.setGain self g w = DRV8711_.setGain self 20 w).
Proof.
  intros self g w Hg.
  assert (Hfield :
    bits 9 8 (ctrl (fst (DRV8711_.setGain self g w))) =
    DRV8711_.gainCode g).
  { apply bits_read; [lia | apply gainCode_range |].
    intros i Hi. rewrite setGain_testbit.
    rewrite (to_uint8_id g) by exact Hg.
    index_cases; reflexivity. }
  split; [|split; [|split]].
  - intros c Hin. rewrite Hfield. simpl in Hin.
    repeat (destruct Hin as [Hin | Hin];
            [injection Hin as <- <-; reflexivity|]).
    contradiction.
  - intros i Hi Hout. rewrite setGain_testbit.
    index_cases; reflexivity.
  - intros Hc i Hout. rewrite setGain_testbit.
    destruct (Z.neg_nonneg_cases i) as [Hneg | Hpos].
    + rewrite (Z.testbit_neg_r (ctrl self)) by exact Hneg.
      index_cases; reflexivity.
    + destruct (Z_lt_le_dec i 12) as [Hlt | Hge].
      * index_cases; reflexivity.
      * rewrite (testbit_small (ctrl self) 12 i) by (try exact Hc; lia).
        index_cases; reflexivity.
  - intros Hout.
    assert (Hcode : DRV8711_.gainCode g = 2).
    { unfold DRV8711_.gainCode, Gain5, Gain10, Gain20, Gain40.
      simpl in Hout.
      repeat match goal with
             | |- context [?a =? ?b] =>
                 destruct (Z.eqb_spec a b); [exfalso; apply Hout; lia|]
             end.
      reflexivity. }
    rewrite !setGain_run. rewrite (to_uint8_id g) by exact Hg.
    rewrite Hcode. reflexivity.
Qed.

Lemma setGain_ctrl_field_witness :
  is_uint8 40 /\ In (40, 3) gainTable /\
  bits 9 8 (ctrl (fst (DRV8711_.setGain
                         fresh
                         40 w0))) = 3.
Proof.
  assert (Hg : is_uint8 40) by (unfold is_uint8; rewrite pow2_8; lia).
  assert (Hin : In (40, 3) gainTable)
    by (simpl; do 3 right; left; reflexivity).
  split; [exact Hg|]. split; [exact Hin|].
  exact (proj1 (setGain_ctrl_field
                  fresh 40 w0 Hg)
           3 Hin).
Defined.

(** C10.  For an 8-bit argument, [setDeadTime] leaves CTRL with bits [9:8]
    cleared, bits [11:10] or-ed with the code picked for the argument
    (always 0b11, so they read 0b11), and bits [7:0] as they were. *)
Theorem setDeadTime_ctrl_as_coded :
  forall (self : DRV8711) (d : Z) (w : World),
    is_uint8 d ->
    bits 9 8 (ctrl (fst (DRV8711_.setDeadTime self d w))) = 0
    /\ bits 11 10 (ctrl (fst (DRV8711_.setDeadTime self d w))) =
         Z.lor (bits 11 10 (ctrl self)) (DRV8711_.deadTimeCode d)
    /\ DRV8711_.deadTimeCode d = 3
    /\ bits 7 0 (ctrl (fst (DRV8711_.setDeadTime self d w))) =
         bits 7 0 (ctrl self)
    /\ (forall i, 0 <= i <= 7 ->
          Z.testbit (ctrl (fst (DRV8711_.setDeadTime self d w))) i =
          Z.testbit (ctrl self) i).
Proof.
  intros self d w Hd.
  assert (Hcode : DRV8711_.deadTimeCode d = 3).
  { rewrite <- (to_uint8_id d) at 1 by exact Hd. apply deadTimeCode_uint8. }
  split; [|split; [|split; [|split]]].
  - apply bits_read; [lia | change (2 ^ (9 - 8 + 1)) with 4; lia |].
    intros i Hi. rewrite setDeadTime_testbit, Z.bits_0.
    index_cases; reflexivity.
  - apply Z.bits_inj'. intros n Hn.
    rewrite Z.lor_spec, !testbit_bits by lia.
    rewrite setDeadTime_testbit, (to_uint8_id d) by exact Hd.
    replace (n + 10 - 10) with n by lia.
    destruct (Z.leb_spec n (11 - 10)) as [Hle | Hgt].
    + index_cases; reflexivity.
    + cbn [andb orb]. symmetry.
      apply (testbit_small _ 2 n); [lia | apply deadTimeCode_range | lia].
  - exact Hcode.
  - apply bits_ext; [lia|]. intros i Hi. rewrite setDeadTime_testbit.
    index_cases; reflexivity.
  - intros i Hi. rewrite setDeadTime_testbit.
    index_cases; reflexivity.
Qed.

Lemma setDeadTime_ctrl_as_coded_witness :
  is_uint8 144 /\
  bits 9 8 (ctrl (fst (DRV8711_.setDeadTime
                         (mkDRV8711 0xF10 0x1FF 0x30 0x80 0x110 0x0 drv0)
                         144 w0))) = 0.
Proof.
  assert (Hd : is_uint8 144) by (unfold is_uint8; rewrite pow2_8; lia).
  split; [exact Hd|].
  exact (proj1 (setDeadTime_ctrl_as_coded
                  (mkDRV8711 0xF10 0x1FF 0x30 0x80 0x110 0x0 drv0)
                  144 w0 Hd)).
Defined.

(** C1, evaluated on the code.  The parameter of [setDeadTime] is a
    [uint8_t]: 400 arrives as 144, no [case] label matches and the code
    stays 0b11; the mask is the one of the gain field, so bits [9:8] are
    cleared.  From CTRL = 0xF10 (gain 40, dead time 850 ns),
    [setDeadTime DeadTime400ns] gives 0xC10: bits [11:10] read 0b11, not
    0b00, and the gain field went from 0b11 to 0b00. *)
Theorem setDeadTime_400ns_from_F10 :
  ctrl (fst (DRV8711_.setDeadTime
               (mkDRV8711 0xF10 0x1FF 0x30 0x80 0x110 0x0 drv0)
               DeadTime400ns w0)) = 0xC10
  /\ bits 11 10 (ctrl (fst (DRV8711_.setDeadTime
                              (mkDRV8711 0xF10 0x1FF 0x30 0x80 0x110 0x0 drv0)
                              DeadTime400ns w0))) = 3
  /\ bits 9 8 0xF10 = 3
  /\ bits 9 8 (ctrl (fst (DRV8711_.setDeadTime
                            (mkDRV8711 0xF10 0x1FF 0x30 0x80 0x110 0x0 drv0)
                            DeadTime400ns w0))) = 0
  /\ wire_words (trace (snd (DRV8711_.setDeadTime
                            (mkDRV8711 0xF10 0x1FF 0x30 0x80 0x110 0x0 drv0)
                            DeadTime400ns w0))) = [0xC10].
Proof. vm_compute. repeat split. Qed.

(** Whatever the argument, [setDeadTime] does what [setDeadTime 850] does. *)
Lemma setDeadTime_any_is_850 (self : DRV8711) (d : Z) (w : World) :
  DRV8711_.setDeadTime self d w =
  DRV8711_.setDeadTime self DeadTime850ns w.
Proof. rewrite !setDeadTime_run, !deadTimeCode_uint8. reflexivity. Qed.

(** *** The toggles and the TORQUE field *)

Lemma write_word_OFF (v : Z) :
  is_uint16 v -> write_word OFF v = Z.lor (Z.shiftl OFF 12) v.
Proof. intros Hv. apply write_word_exact; [unfold OFF; lia | exact Hv]. Qed.

Lemma write_word_TORQUE (v : Z) :
  is_uint16 v -> write_word TORQUE v = Z.lor (Z.shiftl TORQUE 12) v.
Proof. intros Hv. apply write_word_exact; [unfold TORQUE; lia | exact Hv]. Qed.

Lemma setPWMMode_run (self : DRV8711) (pwmMode : Z) (w : World) :
  DRV8711_.setPWMMode self pwmMode w =
  (set_off self (Z.lxor (off self) 0x100),
   mkWorld
     (trace w ++
      write_transaction (ssPin (driver self))
        (Z.lor (Z.shiftl OFF 12) (to_uint16 (Z.lxor (off self) 0x100))))
     (tl (miso w))).
Proof.
  unfold DRV8711_.setPWMMode. rewrite flush_off_run.
  cbn [off set_off driver].
  rewrite write_word_OFF by apply to_uint16_range.
  reflexivity.
Qed.

Lemma flipDirection_run (self : DRV8711) (w : World) :
  DRV8711_.flipDirection self w =
  (set_ctrl self (Z.lxor (ctrl self) 0x2),
   mkWorld
     (trace w ++
      write_transaction (ssPin (driver self))
        (Z.lor (Z.shiftl CTRL 12) (to_uint16 (Z.lxor (ctrl self) 0x2))))
     (tl (miso w))).
Proof.
  unfold DRV8711_.flipDirection. rewrite flush_ctrl_run.
  cbn [ctrl set_ctrl driver].
  rewrite write_word_CTRL by apply to_uint16_range.
  reflexivity.
Qed.

Lemma setTorque_run (self : DRV8711) (torqueValue : Z) (w : World) :
  DRV8711_.setTorque self torqueValue w =
  (set_torque self
     (Z.lor (Z.land (torque self) 0x700) (to_uint8 torqueValue)),
   mkWorld
     (trace w ++
      write_transaction (ssPin (driver self))
        (Z.lor (Z.shiftl TORQUE 12)
           (to_uint16
              (Z.lor (Z.land (torque self) 0x700) (to_uint8 torqueValue)))))
     (tl (miso w))).
Proof.
  unfold DRV8711_.setTorque. rewrite flush_torque_run.
  cbn [torque set_torque driver].
  rewrite write_word_TORQUE by apply to_uint16_range.
  reflexivity.
Qed.

Lemma testbit_two (i : Z) : Z.testbit 0x2 i = (i =? 1).
Proof.
  destruct (Z.eqb_spec i 1) as [-> | Hne]; [reflexivity|].
  change 0x2 with (Z.shiftl 1 1).
  apply (testbit_shiftl_outside 1 1 1 i); lia.
Qed.

(** A 16-bit image with one bit toggled is a 16-bit image. *)
Lemma lxor_uint16 (x y : Z) :
  is_uint16 x -> is_uint16 y -> to_uint16 (Z.lxor x y) = Z.lxor x y.
Proof.
  intros Hx Hy. apply to_uint16_id. apply small_of_testbit; [lia|].
  intros i Hi. rewrite Z.lxor_spec.
  rewrite (testbit_small x 16 i), (testbit_small y 16 i)
    by (try assumption; lia).
  reflexivity.
Qed.

(** C6.  [setPWMMode] does not look at its argument: two calls from the
    same state with any two arguments give the same object and the same
    platform state, hence the same OFF shadow and the same word on the
    wire.  The new OFF is the old one xor 0x100: bit 8 is toggled and no
    other bit changes. *)
Theorem setPWMMode_ignores_argument :
  forall (self : DRV8711) (m1 m2 : Z) (w : World),
    is_uint16 (off self) ->
    DRV8711_.setPWMMode self m1 w = DRV8711_.setPWMMode self m2 w
    /\ off (fst (DRV8711_.setPWMMode self m1 w)) = Z.lxor (off self) 0x100
    /\ Z.testbit (off (fst (DRV8711_.setPWMMode self m1 w))) 8 =
         negb (Z.testbit (off self) 8)
    /\ (forall i, i <> 8 ->
          Z.testbit (off (fst (DRV8711_.setPWMMode self m1 w))) i =
          Z.testbit (off self) i)
    /\ wire_words (trace (snd (DRV8711_.setPWMMode self m1 w))) =
         wire_words (trace w) ++
         [Z.lor (Z.shiftl OFF 12) (Z.lxor (off self) 0x100)].
Proof.
  intros self m1 m2 w Hoff.
  assert (H100 : is_uint16 0x100)
    by (unfold is_uint16; rewrite pow2_16; lia).
  rewrite !setPWMMode_run. cbn [fst snd off set_off trace].
  rewrite (lxor_uint16 _ _ Hoff H100).
  split; [reflexivity|]. split; [reflexivity|].
  split; [|split].
  - rewrite Z.lxor_spec, testbit_mask_off. simpl. apply xorb_true_r.
  - intros i Hi. rewrite Z.lxor_spec, testbit_mask_off.
    destruct (Z.eqb_spec i 8); [contradiction|]. apply xorb_false_r.
  - rewrite wire_words_app. reflexivity.
Qed.

Lemma setPWMMode_ignores_argument_witness :
  is_uint16 0x30 /\
  DRV8711_.setPWMMode fresh 0 w0 =
  DRV8711_.setPWMMode fresh 1 w0.
Proof.
  assert (Hoff : is_uint16 0x30) by (unfold is_uint16; rewrite pow2_16; lia).
  split; [exact Hoff|].
  exact (proj1 (setPWMMode_ignores_argument
                  fresh
                  0 1 w0 Hoff)).
Defined.

(** C7.  For [v] in [0,255], [setTorque v] leaves [v] in TORQUE bits
    [7:0] and bits [10:8] as they were, and flushes the new shadow with
    one write transaction to register TORQUE. *)
Theorem setTorque_torque_field :
  forall (self : DRV8711) (v : Z) (w : World),
    0 <= v <= 255 ->
    bits 7 0 (torque (fst (DRV8711_.setTorque self v w))) = v
    /\ bits 10 8 (torque (fst (DRV8711_.setTorque self v w))) =
         bits 10 8 (torque self)
    /\ (forall i, 8 <= i <= 10 ->
          Z.testbit (torque (fst (DRV8711_.setTorque self v w))) i =
          Z.testbit (torque self) i)
    /\ trace (snd (DRV8711_.setTorque self v w)) =
         trace w ++
         write_transaction (ssPin (driver self))
           (Z.lor (Z.shiftl TORQUE 12)
                  (torque (fst (DRV8711_.setTorque self v w)))).
Proof.
  intros self v w Hv.
  assert (Hv8 : 0 <= v < 2 ^ 8) by (rewrite pow2_8; lia).
  assert (Hbit : forall i,
    Z.testbit (torque (fst (DRV8711_.setTorque self v w))) i =
    if (0 <=? i) && (i <? 8) then Z.testbit v i
    else (8 <=? i) && (i <=? 10) && Z.testbit (torque self) i).
  { intros i. rewrite setTorque_run. cbn [fst torque set_torque].
    rewrite (to_uint8_id v) by exact Hv8.
    rewrite <- (Z.shiftl_0_r v) at 1.
    rewrite (testbit_field_update _ _ _ 0 8) by (try exact Hv8; lia).
    rewrite testbit_mask_torque, Z.sub_0_r.
    index_cases; try reflexivity; try lia. }
  split; [|split; [|split]].
  - apply bits_read; [lia | exact Hv8 |].
    intros i Hi. rewrite Hbit, Z.sub_0_r. index_cases; reflexivity.
  - apply bits_ext; [lia|]. intros i Hi. rewrite Hbit.
    index_cases; reflexivity.
  - intros i Hi. rewrite Hbit. index_cases; reflexivity.
  - rewrite setTorque_run. reflexivity.
Qed.

Lemma setTorque_torque_field_witness :
  (0 <= 0x42 <= 255) /\
  bits 7 0 (torque (fst (DRV8711_.setTorque
                           fresh
                           0x42 w0))) = 0x42.
Proof.
  assert (Hv : 0 <= 0x42 <= 255) by lia.
  split; [exact Hv|].
  exact (proj1 (setTorque_torque_field
                  fresh
                  0x42 w0 Hv)).
Defined.

(** C9.  Two [flipDirection] calls in a row give CTRL bit 1 its first
    value back, and so do two [setPWMMode] calls, with any arguments, for
    OFF bit 8; one call of either negates its bit. *)
Theorem toggles_are_involutions :
  forall (self : DRV8711) (m1 m2 : Z) (w : World),
    Z.testbit (ctrl (fst (DRV8711_.flipDirection self w))) 1 =
      negb (Z.testbit (ctrl self) 1)
    /\ Z.testbit
         (ctrl (fst ((s <- DRV8711_.flipDirection self ;;
                      DRV8711_.flipDirection s) w))) 1 =
       Z.testbit (ctrl self) 1
    /\ Z.testbit (off (fst (DRV8711_.setPWMMode self m1 w))) 8 =
         negb (Z.testbit (off self) 8)
    /\ Z.testbit
         (off (fst ((s <- DRV8711_.setPWMMode self m1 ;;
                     DRV8711_.setPWMMode s m2) w))) 8 =
       Z.testbit (off self) 8.
Proof.
  intros self m1 m2 w. unfold bind.
  rewrite (flipDirection_run self w), (setPWMMode_run self m1 w).
  cbv beta iota.
  rewrite !flipDirection_run, !setPWMMode_run.
  cbn [fst ctrl off set_ctrl set_off].
  rewrite !testbit_to_uint16, !Z.lxor_spec, !testbit_to_uint16, !Z.lxor_spec.
  rewrite !testbit_two, !testbit_mask_off.
  change (1 <? 16) with true. change (8 <? 16) with true.
  change (1 =? 1) with true. change (8 =? 8) with true.
  cbn [andb].
  repeat split;
    try (destruct (Z.testbit (ctrl self) 1); reflexivity);
    destruct (Z.testbit (off self) 8); reflexivity.
Qed.

(** ** Reachable states

    The shadow registers are [protected] members: a client changes them
    through the public methods only.  Every state reached this way from
    the constructor keeps CTRL within 12 bits, TORQUE within 11 and OFF
    within 9, so the word flushed to the device carries the register
    address in its top nibble and the shadow in its payload. *)

Lemma fits_lor (k x y : Z) :
  0 <= k -> fits k x -> fits k y -> fits k (to_uint16 (Z.lor x y)).
Proof.
  intros Hk Hx Hy. apply small_of_testbit; [exact Hk|]. intros i Hi.
  rewrite testbit_to_uint16, Z.lor_spec.
  rewrite (testbit_small x k i), (testbit_small y k i) by assumption.
  apply andb_false_r.
Qed.

Lemma fits_lxor (k x y : Z) :
  0 <= k -> fits k x -> fits k y -> fits k (to_uint16 (Z.lxor x y)).
Proof.
  intros Hk Hx Hy. apply small_of_testbit; [exact Hk|]. intros i Hi.
  rewrite testbit_to_uint16, Z.lxor_spec.
  rewrite (testbit_small x k i), (testbit_small y k i) by assumption.
  apply andb_false_r.
Qed.

Lemma fits_land_l (k x y : Z) :
  0 <= k -> fits k x -> fits k (Z.land x y).
Proof.
  intros Hk Hx. apply small_of_testbit; [exact Hk|]. intros i Hi.
  rewrite Z.land_spec, (testbit_small x k i) by assumption.
  reflexivity.
Qed.

Lemma fits_to_uint16 (k x : Z) : 0 <= k -> fits k x -> fits k (to_uint16 x).
Proof.
  intros Hk Hx. apply small_of_testbit; [exact Hk|]. intros i Hi.
  rewrite testbit_to_uint16, (testbit_small x k i) by assumption.
  apply andb_false_r.
Qed.

Lemma fits_shiftl (k s n v : Z) :
  0 <= s -> 0 <= n -> s + n <= k -> fits n v -> fits k (Z.shiftl v s).
Proof.
  intros Hs Hn Hk Hv. apply small_of_testbit; [lia|]. intros i Hi.
  apply (testbit_shiftl_outside v s n i); try assumption. lia.
Qed.

Lemma fits_mono (k n x : Z) : 0 <= n <= k -> fits n x -> fits k x.
Proof.
  intros Hk [H0 Hx]. split; [exact H0|].
  assert (2 ^ n <= 2 ^ k) by (apply Z.pow_le_mono_r; lia). lia.
Qed.

Lemma fits_const (k c : Z) : (0 <=? c) && (c <? 2 ^ k) = true -> fits k c.
Proof.
  intros H. apply andb_true_iff in H as [H0 H1].
  apply Z.leb_le in H0. apply Z.ltb_lt in H1. split; assumption.
Qed.

Lemma call_images_fit (c : Call) (self : DRV8711) (w : World) :
  images_fit self -> images_fit (fst (call c self w)).
Proof.
  intros (Hc & Ht & Ho).
  destruct c; cbn [call];
    unfold DRV8711_.init, DRV8711_.enableDriver, DRV8711_.disableDriver,
      DRV8711_.flipDirection, DRV8711_.step, DRV8711_.setStepMode,
      DRV8711_.setExternalStallDetection, DRV8711_.setInternalStallDetection,
      DRV8711_.setGain, DRV8711_.setDeadTime, DRV8711_.setTorque,
      DRV8711_.setOffTime, DRV8711_.setPWMMode;
    rewrite ?flush_ctrl_run, ?flush_torque_run, ?flush_off_run;
    unfold images_fit;
    cbn [fst ctrl torque off set_ctrl set_torque set_off set_driver];
    (split; [|split]); try assumption.
  - (* enableDriver *)
    apply fits_lor; [lia | exact Hc | now apply fits_const].
  - (* disableDriver *)
    apply fits_to_uint16; [lia|]. apply fits_land_l; [lia | exact Hc].
  - (* flipDirection *)
    apply fits_lxor; [lia | exact Hc | now apply fits_const].
  - (* step *)
    apply fits_lor; [lia | exact Hc | now apply fits_const].
  - (* setStepMode *)
    apply fits_lor; [lia | apply fits_land_l; [lia | exact Hc] |].
    apply (fits_shiftl 12 3 4); try lia.
    rewrite (small_code_uint16 _ 4) by (try apply stepModeCode_range; lia).
    apply stepModeCode_range.
  - (* setExternalStallDetection *)
    apply fits_lor; [lia | exact Hc | now apply fits_const].
  - (* setInternalStallDetection *)
    apply fits_to_uint16; [lia|]. apply fits_land_l; [lia | exact Hc].
  - (* setGain *)
    apply fits_lor; [lia | apply fits_land_l; [lia | exact Hc] |].
    apply (fits_shiftl 12 8 2); try lia.
    rewrite (small_code_uint16 _ 2) by (try apply gainCode_range; lia).
    apply gainCode_range.
  - (* setDeadTime *)
    apply fits_lor; [lia | apply fits_land_l; [lia | exact Hc] |].
    apply (fits_shiftl 12 10 2); try lia.
    rewrite (small_code_uint16 _ 2) by (try apply deadTimeCode_range; lia).
    apply deadTimeCode_range.
  - (* setTorque *)
    apply fits_lor; [lia | apply fits_land_l; [lia | exact Ht] |].
    apply (fits_mono 11 8); [lia | apply to_uint8_range].
  - (* setOffTime *)
    apply fits_lor; [lia | apply fits_land_l; [lia | exact Ho] |].
    apply (fits_mono 9 8); [lia | apply to_uint8_range].
  - (* setPWMMode *)
    apply fits_lxor; [lia | exact Ho | now apply fits_const].
Qed.

Lemma calls_images_fit (cs : list Call) :
  forall (self : DRV8711) (w : World),
    images_fit self -> images_fit (fst (calls cs self w)).
Proof.
  induction cs as [| c cs IH]; intros self w Hfit.
  - exact Hfit.
  - cbn [calls]. unfold bind.
    pose proof (call_images_fit c self w Hfit) as Hstep.
    destruct (call c self w) as [self' w']. apply IH. exact Hstep.
Qed.

(** X1.  Every state the public interface reaches from the constructor
    keeps CTRL within 12 bits, TORQUE within 11 and OFF within 9. *)
Theorem reachable_images_fit (drv : DRV8711SPI) (cs : list Call) (w : World) :
  images_fit (fst ((self <- DRV8711_.new drv ;; calls cs self) w)).
Proof.
  unfold bind, DRV8711_.new, ret. apply calls_images_fit.
  repeat split; vm_compute; congruence.
Qed.

(** ** More on the transport *)

Lemma testbit_eight (i : Z) : Z.testbit 0x8 i = (i =? 3).
Proof.
  destruct (Z.eqb_spec i 3) as [-> | Hne]; [reflexivity|].
  change 0x8 with (Z.shiftl 1 3).
  apply (testbit_shiftl_outside 1 3 1 i); lia.
Qed.

Lemma readReg_run (self : DRV8711SPI) (address : Z) (w : World) :
  DRV8711SPI_.readReg self address w =
  (to_uint16 (hd 0 (miso w)),
   mkWorld (trace w ++
            write_transaction (ssPin self)
              (to_uint16 (Z.shiftl (Z.lor 0x8 (to_uint8 address)) 12)))
           (tl (miso w))).
Proof.
  unfold DRV8711SPI_.readReg, DRV8711SPI_.selectChip,
    DRV8711SPI_.deselectChip, DRV8711SPI_.transfer, SPI.beginTransaction,
    SPI.endTransaction, SPI.transfer16, digitalWrite, emit, bind, ret,
    write_transaction.
  simpl. rewrite <- !app_assoc. reflexivity.
Qed.

(** The bits of the command word of [readReg], for any address. *)
Lemma read_word_testbit (address i : Z) :
  Z.testbit (to_uint16 (Z.shiftl (Z.lor 0x8 (to_uint8 address)) 12)) i =
  if i =? 15 then true
  else (12 <=? i) && (i <=? 14) && Z.testbit address (i - 12).
Proof.
  rewrite testbit_to_uint16.
  destruct (Z.neg_nonneg_cases i) as [Hneg | Hpos].
  - rewrite (Z.testbit_neg_r _ i) by exact Hneg.
    destruct (Z.eqb_spec i 15); [lia|]. index_cases; reflexivity.
  - rewrite Z.shiftl_spec, Z.lor_spec, testbit_eight, testbit_to_uint8
      by exact Hpos.
    destruct (Z.eqb_spec i 15) as [-> | Hne]; [reflexivity|].
    destruct (Z.eqb_spec (i - 12) 3) as [E | Hne3]; [lia|].
    destruct (Z_lt_le_dec i 12) as [Hlt | Hge].
    + rewrite (Z.testbit_neg_r address) by lia. index_cases; reflexivity.
    + index_cases; reflexivity.
Qed.

(** X2.  For a register address in [0,7], [readReg] makes one
    transaction on the chip-select pin that shifts out the word
    [(0x8 | a) << 12]: top nibble [8 + a], payload zero.  It returns the
    word the device shifts in during that exchange. *)
Theorem readReg_command_word :
  forall (self : DRV8711SPI) (a : Z) (w : World),
    0 <= a <= 7 ->
    trace (snd (DRV8711SPI_.readReg self a w)) =
      trace w ++
      [ DigitalWrite (ssPin self) HIGH;
        BeginTransaction (mkSPISettings 500000 MSBFIRST SPI_MODE0);
        Transfer16 (Z.shiftl (Z.lor 0x8 a) 12);
        EndTransaction;
        DigitalWrite (ssPin self) LOW ]
    /\ bits 15 12 (Z.shiftl (Z.lor 0x8 a) 12) = 8 + a
    /\ bits 11 0 (Z.shiftl (Z.lor 0x8 a) 12) = 0
    /\ fst (DRV8711SPI_.readReg self a w) = to_uint16 (hd 0 (miso w))
    /\ miso (snd (DRV8711SPI_.readReg self a w)) = tl (miso w).
Proof.
  intros self a w Ha. rewrite readReg_run. cbn [fst snd trace miso].
  assert (Ea : to_uint8 a = a)
    by (apply to_uint8_id; unfold is_uint8; rewrite pow2_8; lia).
  assert (Ew : to_uint16 (Z.shiftl (Z.lor 0x8 a) 12) =
               Z.shiftl (Z.lor 0x8 a) 12).
  { assert (C : a = 0 \/ a = 1 \/ a = 2 \/ a = 3 \/ a = 4 \/ a = 5
                \/ a = 6 \/ a = 7) by lia.
    repeat (destruct C as [C | C]; [subst a; reflexivity|]).
    subst a; reflexivity. }
  rewrite Ea, Ew.
  split; [reflexivity|].
  assert (C : a = 0 \/ a = 1 \/ a = 2 \/ a = 3 \/ a = 4 \/ a = 5
              \/ a = 6 \/ a = 7) by lia.
  repeat (destruct C as [C | C];
          [subst a; repeat split; reflexivity|]).
  subst a; repeat split; reflexivity.
Qed.

Lemma readReg_command_word_witness :
  (0 <= 7 <= 7) /\
  bits 15 12 (Z.shiftl (Z.lor 0x8 7) 12) = 8 + 7.
Proof.
  assert (Ha : 0 <= 7 <= 7) by lia.
  split; [exact Ha|].
  exact (proj1 (proj2 (readReg_command_word drv0 7 w0 Ha))).
Defined.

(** X3.  [readReg] looks at the three low bits of its address only: bit 3
    is absorbed by the read flag and the bits above are shifted out of the
    16-bit word.  The word always carries the read flag, bit 15. *)
Theorem readReg_address_low_bits :
  forall (self : DRV8711SPI) (a : Z) (w : World),
    DRV8711SPI_.readReg self a w = DRV8711SPI_.readReg self (a mod 8) w
    /\ wire_words (trace (snd (DRV8711SPI_.readReg self a w))) =
         wire_words (trace w) ++ [Z.shiftl (Z.lor 0x8 (a mod 8)) 12]
    /\ Z.testbit (Z.shiftl (Z.lor 0x8 (a mod 8)) 12) 15 = true.
Proof.
  intros self a w.
  assert (Hword : forall b,
            to_uint16 (Z.shiftl (Z.lor 0x8 (to_uint8 b)) 12) =
            Z.shiftl (Z.lor 0x8 (b mod 8)) 12).
  { intros b. apply Z.bits_inj'. intros i Hi.
    rewrite read_word_testbit, Z.shiftl_spec, Z.lor_spec, testbit_eight
      by exact Hi.
    change 8 with (2 ^ 3). rewrite testbit_trunc by lia.
    destruct (Z.eqb_spec i 15) as [-> | Hne]; [reflexivity|].
    destruct (Z.eqb_spec (i - 12) 3) as [E | Hne3]; [lia|].
    destruct (Z_lt_le_dec i 12) as [Hlt | Hge].
    - rewrite (Z.testbit_neg_r b) by lia. index_cases; reflexivity.
    - index_cases; reflexivity. }
  split; [|split].
  - rewrite !readReg_run. do 4 f_equal. rewrite !Hword.
    now rewrite Z.mod_mod by lia.
  - rewrite readReg_run. cbn [snd trace].
    rewrite wire_words_app, Hword. reflexivity.
  - rewrite Z.shiftl_spec, Z.lor_spec, testbit_eight by lia. reflexivity.
Qed.

(** The bits of the word of [writeReg], for any address and value. *)
Lemma write_word_testbit (a v i : Z) :
  Z.testbit (write_word a v) i =
  (i <? 16) && (Z.testbit a (i - 12) || Z.testbit v i).
Proof.
  unfold write_word. rewrite testbit_to_uint16, Z.lor_spec, testbit_to_uint16.
  destruct (Z.neg_nonneg_cases i) as [Hneg | Hpos].
  - rewrite (Z.testbit_neg_r _ i), (Z.testbit_neg_r v i),
      (Z.testbit_neg_r a (i - 12)) by lia.
    index_cases; reflexivity.
  - rewrite Z.shiftl_spec, testbit_to_uint8 by exact Hpos.
    destruct (Z.ltb_spec i 16) as [Hlt | Hge]; [|reflexivity].
    destruct (Z.ltb_spec (i - 12) 8); [reflexivity | lia].
Qed.

(** The top nibble of the word: the address, when the value leaves it
    alone. *)
Lemma write_word_nibble (a v : Z) :
  0 <= a <= 7 -> 0 <= v < 2 ^ 12 -> bits 15 12 (write_word a v) = a.
Proof.
  intros Ha Hv. apply bits_read; [lia | change (2 ^ (15 - 12 + 1)) with 16; lia |].
  intros i Hi. rewrite write_word_testbit.
  rewrite (testbit_small v 12 i) by (try exact Hv; lia).
  rewrite orb_false_r. destruct (Z.ltb_spec i 16); [reflexivity | lia].
Qed.

(** The payload of the word: the value, when it has 12 bits. *)
Lemma write_word_payload (a v : Z) :
  0 <= v < 2 ^ 12 -> bits 11 0 (write_word a v) = v.
Proof.
  intros Hv. apply bits_read; [lia | exact Hv |].
  intros i Hi. rewrite write_word_testbit.
  rewrite (Z.testbit_neg_r a (i - 12)) by lia.
  rewrite Z.sub_0_r. destruct (Z.ltb_spec i 16); [reflexivity | lia].
Qed.

(** X4.  For any address and value, [writeReg] shifts out one word whose
    payload is the value's 12 low bits and whose top nibble is the
    address's 4 low bits or-ed with bits [15:12] of the value: nothing
    masks an over-wide value, and the call is the one made with the
    address modulo 16 and the value modulo 2^16. *)
Theorem writeReg_word_fields :
  forall (self : DRV8711SPI) (a v : Z) (w : World),
    wire_words (trace (snd (DRV8711SPI_.writeReg self a v w))) =
      wire_words (trace w) ++
      [Z.lor (Z.shiftl (a mod 16) 12) (v mod 2 ^ 16)]
    /\ bits 11 0 (Z.lor (Z.shiftl (a mod 16) 12) (v mod 2 ^ 16)) =
         v mod 2 ^ 12
    /\ bits 15 12 (Z.lor (Z.shiftl (a mod 16) 12) (v mod 2 ^ 16)) =
         Z.lor (a mod 16) (bits 15 12 v)
    /\ DRV8711SPI_.writeReg self a v w =
         DRV8711SPI_.writeReg self (a mod 16) (v mod 2 ^ 16) w.
Proof.
  intros self a v w.
  assert (Hword : forall b u,
            write_word b u = Z.lor (Z.shiftl (b mod 16) 12) (u mod 2 ^ 16)).
  { intros b u. apply Z.bits_inj'. intros i Hi.
    rewrite write_word_testbit, Z.lor_spec, Z.shiftl_spec by exact Hi.
    change 16 with (2 ^ 4) at 2. rewrite !testbit_trunc by lia.
    destruct (Z_lt_le_dec i 12) as [Hlt | Hge].
    - rewrite (Z.testbit_neg_r b) by lia. index_cases; reflexivity.
    - index_cases; reflexivity. }
  rewrite <- !Hword. split; [|split; [|split]].
  - rewrite writeReg_run. cbn [snd trace].
    rewrite wire_words_app. reflexivity.
  - apply Z.bits_inj'. intros n Hn.
    rewrite testbit_bits, write_word_testbit, testbit_trunc by lia.
    rewrite Z.add_0_r.
    destruct (Z_lt_le_dec n 12) as [Hlt | Hge].
    + rewrite (Z.testbit_neg_r a (n - 12)) by lia. index_cases; reflexivity.
    + index_cases; reflexivity.
  - apply Z.bits_inj'. intros n Hn.
    rewrite Z.lor_spec, !testbit_bits, write_word_testbit by lia.
    change 16 with (2 ^ 4) at 2. rewrite testbit_trunc by lia.
    replace (n + 12 - 12) with n by lia.
    index_cases; try reflexivity;
      destruct (Z.testbit a n); reflexivity.
  - rewrite !writeReg_run. do 4 f_equal. rewrite !Hword.
    rewrite !Z.mod_mod by lia. reflexivity.
Qed.

(** X5.  On register addresses and 12-bit values the word of [writeReg]
    determines both: two writes that shift out the same word have the same
    address and the same value.  Such a word is never the command word of
    a [readReg]. *)
Theorem writeReg_word_injective :
  forall (self self' : DRV8711SPI) (a a' v v' : Z) (w : World),
    0 <= a <= 7 -> 0 <= a' <= 7 -> 0 <= v < 2 ^ 12 -> 0 <= v' < 2 ^ 12 ->
    (wire_words (trace (snd (DRV8711SPI_.writeReg self a v w))) =
     wire_words (trace (snd (DRV8711SPI_.writeReg self' a' v' w))) ->
     a = a' /\ v = v')
    /\ (forall b,
          wire_words (trace (snd (DRV8711SPI_.writeReg self a v w))) <>
          wire_words (trace (snd (DRV8711SPI_.readReg self' b w)))).
Proof.
  intros self self' a a' v v' w Ha Ha' Hv Hv'.
  rewrite !writeReg_run. cbn [snd trace]. rewrite !wire_words_app.
  cbn [wire_words write_transaction]. split.
  - intros E. apply app_inj_tail in E as [_ E].
    split.
    + rewrite <- (write_word_nibble a v Ha Hv),
        <- (write_word_nibble a' v' Ha' Hv'). now rewrite E.
    + rewrite <- (write_word_payload a v Hv),
        <- (write_word_payload a' v' Hv'). now rewrite E.
  - intros b E. rewrite readReg_run in E. cbn [snd trace] in E.
    rewrite wire_words_app in E. cbn [wire_words write_transaction] in E.
    apply app_inj_tail in E as [_ E].
    assert (Hbit : Z.testbit (write_word a v) 15 = true).
    { rewrite E, read_word_testbit. reflexivity. }
    rewrite write_word_testbit in Hbit.
    rewrite (testbit_small a 3 (15 - 12)), (testbit_small v 12 15) in Hbit
      by (try exact Hv; change (2 ^ 3) with 8; lia).
    discriminate Hbit.
Qed.

Lemma writeReg_word_injective_witness :
  (0 <= 1 <= 7) /\ (0 <= 0xFF < 2 ^ 12) /\
  (wire_words (trace (snd (DRV8711SPI_.writeReg drv0 1 0xFF w0))) =
   wire_words (trace (snd (DRV8711SPI_.writeReg drv0 1 0xFF w0))) ->
   1 = 1 /\ 0xFF = 0xFF).
Proof.
  assert (Ha : 0 <= 1 <= 7) by lia.
  assert (Hv : 0 <= 0xFF < 2 ^ 12) by (change (2 ^ 12) with 4096; lia).
  split; [exact Ha|]. split; [exact Hv|].
  exact (proj1 (writeReg_word_injective drv0 drv0 1 1 0xFF 0xFF w0
                  Ha Ha Hv Hv)).
Defined.

(** ** Sequences of calls on the register model *)

Ltac unfold_methods :=
  unfold DRV8711_.init, DRV8711_.enableDriver, DRV8711_.disableDriver,
    DRV8711_.flipDirection, DRV8711_.step, DRV8711_.setStepMode,
    DRV8711_.setExternalStallDetection, DRV8711_.setInternalStallDetection,
    DRV8711_.setGain, DRV8711_.setDeadTime, DRV8711_.setTorque,
    DRV8711_.setOffTime, DRV8711_.setPWMMode;
  rewrite ?flush_ctrl_run, ?flush_torque_run, ?flush_off_run.

Lemma init_run (self : DRV8711) (pin : Z) (w : World) :
  DRV8711_.init self pin w =
  (set_driver self (mkDRV8711SPI (to_uint8 pin)),
   mkWorld (trace w ++ [DigitalWrite (to_uint8 pin) LOW;
                        PinModeOutput (to_uint8 pin)])
           (miso w)).
Proof.
  unfold DRV8711_.init, DRV8711SPI_.init, bind, ret, digitalWrite,
    pinMode_OUTPUT, emit.
  cbn [trace miso ssPin]. rewrite <- app_assoc.
  unfold to_uint8. rewrite Z.mod_mod by (rewrite pow2_8; lia).
  reflexivity.
Qed.

(** What a call leaves on the platform: [init] sets up the pin, every
    other call makes one write transaction for the register it edits,
    carrying that register's new shadow. *)
Lemma call_world (c : Call) (self : DRV8711) (w : World) :
  match target c with
  | Some r =>
      snd (call c self w) =
      mkWorld (trace w ++
               write_transaction (ssPin (driver self))
                 (write_word r (shadow r (fst (call c self w)))))
              (tl (miso w))
      /\ driver (fst (call c self w)) = driver self
  | None =>
      snd (call c self w) =
      mkWorld (trace w ++
               [DigitalWrite (ssPin (driver (fst (call c self w)))) LOW;
                PinModeOutput (ssPin (driver (fst (call c self w))))])
              (miso w)
  end.
Proof.
  destruct c; cbn [call target];
    try (unfold_methods; split; reflexivity).
  rewrite init_run. reflexivity.
Qed.

Lemma bus_run_app (st : BusState) (s t : list BusEvent) :
  bus_run st (s ++ t) =
  match bus_run st s with
  | Some st' => bus_run st' t
  | None => None
  end.
Proof.
  revert st. induction s as [| e s IH]; intros st; simpl; [reflexivity|].
  destruct (bus_step st e); [apply IH | reflexivity].
Qed.

Lemma bus_run_transaction (pin word : Z) :
  bus_run BusIdle (write_transaction pin word) = Some BusIdle.
Proof. simpl. now rewrite Z.eqb_refl. Qed.

(** X6.  The calls keep the chip-select protocol: from a platform whose
    trace is a run of the protocol back to idle, any sequence of calls
    leaves such a trace.  No word is exchanged with the chip deselected or
    outside a transaction, each selection carries exactly one word, and
    the chip is deselected, on the pin that selected it, when a call
    returns. *)
Theorem calls_keep_bus_protocol :
  forall (cs : list Call) (self : DRV8711) (w : World),
    bus_run BusIdle (trace w) = Some BusIdle ->
    bus_run BusIdle (trace (snd (calls cs self w))) = Some BusIdle.
Proof.
  induction cs as [| c cs IH]; intros self w Hw; [exact Hw|].
  cbn [calls]. unfold bind.
  pose proof (call_world c self w) as Hc.
  destruct (call c self w) as [self' w'] eqn:E. cbn [fst snd] in Hc.
  apply IH. destruct (target c) as [r|].
  - destruct Hc as [-> _]. cbn [trace].
    rewrite bus_run_app, Hw. apply bus_run_transaction.
  - rewrite Hc. cbn [trace]. rewrite bus_run_app, Hw. reflexivity.
Qed.

Lemma calls_keep_bus_protocol_witness :
  bus_run BusIdle (trace w0) = Some BusIdle /\
  bus_run BusIdle
    (trace (snd (calls [CallInit 10; CallSetStepMode 16; CallEnableDriver]
                   fresh w0))) = Some BusIdle.
Proof.
  assert (Hw : bus_run BusIdle (trace w0) = Some BusIdle) by reflexivity.
  split; [exact Hw|].
  exact (calls_keep_bus_protocol
           [CallInit 10; CallSetStepMode 16; CallEnableDriver] fresh w0 Hw).
Defined.

Lemma target_address (c : Call) (r : Z) :
  target c = Some r -> r = CTRL \/ r = TORQUE \/ r = OFF.
Proof.
  destruct c; cbn [target]; intros E; inversion E; auto.
Qed.

Lemma shadow_fits (r : Z) (self : DRV8711) :
  images_fit self -> r = CTRL \/ r = TORQUE \/ r = OFF ->
  0 <= shadow r self < 2 ^ 12.
Proof.
  intros (Hc & Ht & Ho) [-> | [-> | ->]]; cbn.
  - exact Hc.
  - apply (fits_mono 12 11); [lia | exact Ht].
  - apply (fits_mono 12 9); [lia | exact Ho].
Qed.

(** X7.  Write-through.  From a state whose shadows fit their registers,
    a call other than [init] makes exactly one write transaction; its
    word carries the address of the register the call edits in the top
    nibble and the new shadow of that register in the payload; no other
    shadow changes. *)
Theorem call_flushes_its_register :
  forall (c : Call) (r : Z) (self : DRV8711) (w : World),
    images_fit self -> target c = Some r ->
    exists word,
      trace (snd (call c self w)) =
        trace w ++
        [ DigitalWrite (ssPin (driver self)) HIGH;
          BeginTransaction (mkSPISettings 500000 MSBFIRST SPI_MODE0);
          Transfer16 word;
          EndTransaction;
          DigitalWrite (ssPin (driver self)) LOW ]
      /\ bits 15 12 word = r
      /\ bits 11 0 word = shadow r (fst (call c self w))
      /\ (forall r', 0 <= r' <= 7 -> r' <> r ->
            shadow r' (fst (call c self w)) = shadow r' self).
Proof.
  intros c r self w Hfit Ht.
  pose proof (call_world c self w) as Hc. rewrite Ht in Hc.
  destruct Hc as [Hw _].
  pose proof (target_address c r Ht) as Hr.
  pose proof (shadow_fits r _ (call_images_fit c self w Hfit) Hr) as Hs.
  exists (write_word r (shadow r (fst (call c self w)))).
  split; [rewrite Hw; reflexivity|].
  split; [apply write_word_nibble; [unfold CTRL, TORQUE, OFF in Hr; lia
                                   | exact Hs]|].
  split; [apply write_word_payload; exact Hs|].
  intros r' Hr' Hne.
  assert (C : r' = 0 \/ r' = 1 \/ r' = 2 \/ r' = 3 \/ r' = 4 \/ r' = 5
              \/ r' = 6 \/ r' = 7) by lia.
  destruct c; cbn [target] in Ht; inversion Ht; subst r;
    cbn [call]; unfold_methods;
    unfold CTRL, TORQUE, OFF in Hne;
    repeat (destruct C as [C | C]; [subst r'; try lia; reflexivity|]);
    subst r'; reflexivity.
Qed.

Lemma call_flushes_its_register_witness :
  images_fit fresh /\ target (CallSetTorque 0x42) = Some TORQUE /\
  exists word,
    trace (snd (call (CallSetTorque 0x42) fresh w0)) =
      trace w0 ++
      [ DigitalWrite (ssPin (driver fresh)) HIGH;
        BeginTransaction (mkSPISettings 500000 MSBFIRST SPI_MODE0);
        Transfer16 word;
        EndTransaction;
        DigitalWrite (ssPin (driver fresh)) LOW ]
    /\ bits 15 12 word = TORQUE
    /\ bits 11 0 word = shadow TORQUE (fst (call (CallSetTorque 0x42)
                                              fresh w0))
    /\ (forall r', 0 <= r' <= 7 -> r' <> TORQUE ->
          shadow r' (fst (call (CallSetTorque 0x42) fresh w0)) =
          shadow r' fresh).
Proof.
  assert (Hfit : images_fit fresh)
    by (repeat split; vm_compute; congruence).
  assert (Ht : target (CallSetTorque 0x42) = Some TORQUE) by reflexivity.
  split; [exact Hfit|]. split; [exact Ht|].
  exact (call_flushes_its_register (CallSetTorque 0x42) TORQUE fresh w0
           Hfit Ht).
Defined.

Lemma call_keeps_unwritten (c : Call) (self : DRV8711) (w : World) :
  blank (fst (call c self w)) = blank self
  /\ decay (fst (call c self w)) = decay self
  /\ status (fst (call c self w)) = status self.
Proof.
  destruct c; cbn [call]; unfold_methods; repeat split; reflexivity.
Qed.

Lemma calls_words (cs : list Call) :
  forall (self : DRV8711) (w : World),
    images_fit self ->
    exists ws,
      wire_words (trace (snd (calls cs self w))) =
        wire_words (trace w) ++ ws
      /\ Forall (fun word => bits 15 12 word = CTRL
                             \/ bits 15 12 word = TORQUE
                             \/ bits 15 12 word = OFF) ws
      /\ blank (fst (calls cs self w)) = blank self
      /\ decay (fst (calls cs self w)) = decay self
      /\ status (fst (calls cs self w)) = status self.
Proof.
  induction cs as [| c cs IH]; intros self w Hfit.
  - exists []. cbn. rewrite app_nil_r. repeat split. constructor.
  - cbn [calls]. unfold bind.
    pose proof (call_world c self w) as Hc.
    pose proof (call_images_fit c self w Hfit) as Hfit'.
    pose proof (call_keeps_unwritten c self w) as (Hb & Hd & Hs).
    pose proof (target_address c) as Haddr.
    destruct (call c self w) as [self' w'] eqn:E.
    cbn [fst snd] in Hc, Hfit', Hb, Hd, Hs.
    destruct (IH self' w' Hfit') as (ws & Hws & Hall & Hb' & Hd' & Hs').
    rewrite Hb', Hd', Hs', Hb, Hd, Hs.
    destruct (target c) as [r|].
    + destruct Hc as [Hw' _]. specialize (Haddr r eq_refl).
      exists (write_word r (shadow r self') :: ws).
      split; [|split; [|repeat split]].
      * rewrite Hws, Hw'. cbn [trace]. rewrite wire_words_app.
        cbn [wire_words write_transaction]. rewrite <- app_assoc.
        reflexivity.
      * constructor; [|exact Hall].
        rewrite write_word_nibble;
          [exact Haddr
          | unfold CTRL, TORQUE, OFF in Haddr; lia
          | apply shadow_fits; assumption].
    + exists ws. split; [|split; [exact Hall | repeat split]].
      rewrite Hws, Hc. cbn [trace]. rewrite wire_words_app.
      cbn [wire_words]. now rewrite app_nil_r.
Qed.

(** X8.  Whatever the client calls after the constructor, every word the
    driver shifts out is a write to CTRL, TORQUE or OFF: it issues no read
    command and never writes BLANK, DECAY or STATUS, whose shadows stay at
    their power-on values. *)
Theorem driver_writes_three_registers :
  forall (drv : DRV8711SPI) (cs : list Call) (w : World),
    exists ws,
      wire_words
        (trace (snd ((self <- DRV8711_.new drv ;; calls cs self) w))) =
        wire_words (trace w) ++ ws
      /\ Forall (fun word => bits 15 12 word = CTRL
                             \/ bits 15 12 word = TORQUE
                             \/ bits 15 12 word = OFF) ws
      /\ blank (fst ((self <- DRV8711_.new drv ;; calls cs self) w)) = 0x80
      /\ decay (fst ((self <- DRV8711_.new drv ;; calls cs self) w)) = 0x110
      /\ status (fst ((self <- DRV8711_.new drv ;; calls cs self) w)) = 0x0.
Proof.
  intros drv cs w. unfold bind, DRV8711_.new, ret.
  apply (calls_words cs (mkDRV8711 0xC10 0x1FF 0x30 0x80 0x110 0x0 drv) w).
  repeat split; vm_compute; congruence.
Qed.

(** The bit of a one shifted to position [n]. *)
Lemma testbit_one_shifted (n i : Z) :
  0 <= n -> Z.testbit (Z.shiftl 1 n) i = (i =? n).
Proof.
  intros Hn. rewrite Z.shiftl_1_l, Z.pow2_bits_eqb by exact Hn.
  apply Z.eqb_sym.
Qed.

(** A call other than [disableDriver] keeps a set ENBL or RSTEP bit. *)
Lemma call_keeps_set_bit (c : Call) (self : DRV8711) (w : World) (i : Z) :
  i = 0 \/ i = 2 -> c <> CallDisableDriver ->
  Z.testbit (ctrl self) i = true ->
  Z.testbit (ctrl (fst (call c self w))) i = true.
Proof.
  intros Hi Hc Hbit.
  destruct c; try contradiction; cbn [call];
    try (rewrite setStepMode_testbit, Hbit;
         destruct Hi as [-> | ->]; reflexivity);
    try (rewrite setGain_testbit, Hbit;
         destruct Hi as [-> | ->]; reflexivity);
    try (rewrite setDeadTime_testbit, Hbit;
         destruct Hi as [-> | ->]; reflexivity);
    try (rewrite init_run; exact Hbit);
    unfold_methods; cbn [fst ctrl set_ctrl set_torque set_off];
    try exact Hbit;
    rewrite testbit_to_uint16, ?Z.lor_spec, ?Z.land_spec, ?Z.lxor_spec, Hbit;
    destruct Hi as [-> | ->]; reflexivity.
Qed.

(** X9.  ENBL (CTRL bit 0) and RSTEP (CTRL bit 2) are sticky in the
    shadow: once set, each stays set through every sequence of calls that
    does not contain [disableDriver]. *)
Theorem enable_and_step_bits_stick :
  forall (cs : list Call) (self : DRV8711) (w : World) (i : Z),
    i = 0 \/ i = 2 ->
    ~ In CallDisableDriver cs ->
    Z.testbit (ctrl self) i = true ->
    Z.testbit (ctrl (fst (calls cs self w))) i = true.
Proof.
  induction cs as [| c cs IH]; intros self w i Hi Hno Hbit; [exact Hbit|].
  cbn [calls]. unfold bind.
  assert (Hc : c <> CallDisableDriver)
    by (intros ->; apply Hno; left; reflexivity).
  pose proof (call_keeps_set_bit c self w i Hi Hc Hbit) as Hstep.
  destruct (call c self w) as [self' w']. cbn [fst] in Hstep.
  apply IH; [exact Hi | | exact Hstep].
  intros Hin. apply Hno. right. exact Hin.
Qed.

Lemma enable_and_step_bits_stick_witness :
  (2 = 0 \/ 2 = 2)
  /\ ~ In CallDisableDriver [CallSetGain 40; CallEnableDriver]
  /\ Z.testbit (ctrl (fst (DRV8711_.step fresh w0))) 2 = true
  /\ Z.testbit
       (ctrl (fst (calls [CallSetGain 40; CallEnableDriver]
                     (fst (DRV8711_.step fresh w0)) w0))) 2 = true.
Proof.
  assert (Hi : 2 = 0 \/ 2 = 2) by (right; reflexivity).
  assert (Hno : ~ In CallDisableDriver [CallSetGain 40; CallEnableDriver]).
  { simpl. intros [H | [H | H]]; try discriminate H; exact H. }
  assert (Hbit : Z.testbit (ctrl (fst (DRV8711_.step fresh w0))) 2 = true)
    by reflexivity.
  split; [exact Hi|]. split; [exact Hno|]. split; [exact Hbit|].
  exact (enable_and_step_bits_stick [CallSetGain 40; CallEnableDriver]
           (fst (DRV8711_.step fresh w0)) w0 2 Hi Hno Hbit).
Defined.

(** ** The single-bit setters of CTRL *)

Lemma run_bind {A B : Type} (m : IO A) (k : A -> IO B) (w : World) :
  (x <- m ;; k x) w = k (fst (m w)) (snd (m w)).
Proof. unfold bind. destruct (m w). reflexivity. Qed.

Lemma step_testbit (self : DRV8711) (w : World) (i : Z) :
  Z.testbit (ctrl (fst (DRV8711_.step self w))) i =
  (i <? 16) && (Z.testbit (ctrl self) i || (i =? 2)).
Proof.
  unfold_methods. cbn [fst ctrl set_ctrl].
  now rewrite testbit_to_uint16, Z.lor_spec, testbit_one_shifted by lia.
Qed.

Lemma setExternalStallDetection_testbit
      (self : DRV8711) (w : World) (i : Z) :
  Z.testbit (ctrl (fst (DRV8711_.setExternalStallDetection self w))) i =
  (i <? 16) && (Z.testbit (ctrl self) i || (i =? 7)).
Proof.
  unfold_methods. cbn [fst ctrl set_ctrl].
  now rewrite testbit_to_uint16, Z.lor_spec, testbit_one_shifted by lia.
Qed.

Lemma setInternalStallDetection_testbit
      (self : DRV8711) (w : World) (i : Z) :
  Z.testbit (ctrl (fst (DRV8711_.setInternalStallDetection self w))) i =
  (i <? 16) && (Z.testbit (ctrl self) i && negb (i =? 7)).
Proof.
  unfold_methods. cbn [fst ctrl set_ctrl].
  rewrite testbit_to_uint16, Z.land_spec.
  destruct (Z.neg_nonneg_cases i) as [Hneg | Hpos].
  - now rewrite (Z.testbit_neg_r (ctrl self)) by exact Hneg.
  - now rewrite Z.lnot_spec, testbit_one_shifted by lia.
Qed.

Lemma uint16_high_bit (x i : Z) :
  is_uint16 x -> 16 <= i -> Z.testbit x i = false.
Proof. intros Hx Hi. apply (testbit_small x 16 i); [lia | exact Hx | exact Hi]. Qed.

(** X10.  [setExternalStallDetection] sets CTRL bit 7 and
    [setInternalStallDetection] clears it; neither changes another bit,
    and the later of two such calls decides the bit. *)
Theorem stall_detection_bit :
  forall (self : DRV8711) (w : World),
    is_uint16 (ctrl self) ->
    Z.testbit (ctrl (fst (DRV8711_.setExternalStallDetection self w))) 7
      = true
    /\ (forall i, i <> 7 ->
          Z.testbit
            (ctrl (fst (DRV8711_.setExternalStallDetection self w))) i =
          Z.testbit (ctrl self) i)
    /\ Z.testbit (ctrl (fst (DRV8711_.setInternalStallDetection self w))) 7
         = false
    /\ (forall i, i <> 7 ->
          Z.testbit
            (ctrl (fst (DRV8711_.setInternalStallDetection self w))) i =
          Z.testbit (ctrl self) i)
    /\ ctrl (fst ((s <- DRV8711_.setExternalStallDetection self ;;
                   DRV8711_.setInternalStallDetection s) w)) =
       ctrl (fst (DRV8711_.setInternalStallDetection self w))
    /\ ctrl (fst ((s <- DRV8711_.setInternalStallDetection self ;;
                   DRV8711_.setExternalStallDetection s) w)) =
       ctrl (fst (DRV8711_.setExternalStallDetection self w)).
Proof.
  intros self w Hc.
  split; [|split; [|split; [|split; [|split]]]].
  - rewrite setExternalStallDetection_testbit. apply orb_true_r.
  - intros i Hi. rewrite setExternalStallDetection_testbit.
    destruct (Z.eqb_spec i 7); [contradiction|]. rewrite orb_false_r.
    destruct (Z.ltb_spec i 16); [reflexivity|].
    symmetry. now apply uint16_high_bit.
  - rewrite setInternalStallDetection_testbit. apply andb_false_r.
  - intros i Hi. rewrite setInternalStallDetection_testbit.
    destruct (Z.eqb_spec i 7); [contradiction|]. rewrite andb_true_r.
    destruct (Z.ltb_spec i 16); [reflexivity|].
    symmetry. now apply uint16_high_bit.
  - rewrite run_bind. apply Z.bits_inj'. intros i Hi.
    rewrite !setInternalStallDetection_testbit,
      setExternalStallDetection_testbit.
    destruct (i <? 16), (i =? 7), (Z.testbit (ctrl self) i); reflexivity.
  - rewrite run_bind. apply Z.bits_inj'. intros i Hi.
    rewrite !setExternalStallDetection_testbit,
      setInternalStallDetection_testbit.
    destruct (i <? 16), (i =? 7), (Z.testbit (ctrl self) i); reflexivity.
Qed.

Lemma stall_detection_bit_witness :
  is_uint16 (ctrl fresh) /\
  Z.testbit (ctrl (fst (DRV8711_.setExternalStallDetection fresh w0))) 7
    = true.
Proof.
  assert (Hc : is_uint16 (ctrl fresh))
    by (unfold is_uint16; rewrite pow2_16; cbn; lia).
  split; [exact Hc|].
  exact (proj1 (stall_detection_bit fresh w0 Hc)).
Defined.

(** X11.  [step] sets CTRL bit 2 (RSTEP) and changes no other bit; a
    second [step] leaves the shadow as the first did. *)
Theorem step_sets_rstep :
  forall (self : DRV8711) (w : World),
    is_uint16 (ctrl self) ->
    Z.testbit (ctrl (fst (DRV8711_.step self w))) 2 = true
    /\ (forall i, i <> 2 ->
          Z.testbit (ctrl (fst (DRV8711_.step self w))) i =
          Z.testbit (ctrl self) i)
    /\ ctrl (fst ((s <- DRV8711_.step self ;; DRV8711_.step s) w)) =
       ctrl (fst (DRV8711_.step self w)).
Proof.
  intros self w Hc. split; [|split].
  - rewrite step_testbit. apply orb_true_r.
  - intros i Hi. rewrite step_testbit.
    destruct (Z.eqb_spec i 2); [contradiction|]. rewrite orb_false_r.
    destruct (Z.ltb_spec i 16); [reflexivity|].
    symmetry. now apply uint16_high_bit.
  - rewrite run_bind. apply Z.bits_inj'. intros i Hi.
    rewrite !step_testbit.
    destruct (i <? 16), (i =? 2), (Z.testbit (ctrl self) i); reflexivity.
Qed.

Lemma step_sets_rstep_witness :
  is_uint16 (ctrl fresh) /\
  Z.testbit (ctrl (fst (DRV8711_.step fresh w0))) 2 = true.
Proof.
  assert (Hc : is_uint16 (ctrl fresh))
    by (unfold is_uint16; rewrite pow2_16; cbn; lia).
  split; [exact Hc|].
  exact (proj1 (step_sets_rstep fresh w0 Hc)).
Defined.

(** ** The byte fields of TORQUE and OFF *)

Lemma setOffTime_testbit (self : DRV8711) (v : Z) (w : World) (i : Z) :
  Z.testbit (off (fst (DRV8711_.setOffTime self v w))) i =
  if (0 <=? i) && (i <? 8) then Z.testbit v i
  else (i =? 8) && Z.testbit (off self) i.
Proof.
  unfold_methods. cbn [fst off set_off].
  rewrite <- (Z.shiftl_0_r (to_uint8 v)).
  rewrite (testbit_field_update _ _ _ 0 8)
    by (try apply to_uint8_range; lia).
  rewrite testbit_mask_off, Z.sub_0_r, testbit_to_uint8.
  destruct (Z.eqb_spec i 8) as [-> | Hne]; [now rewrite andb_true_r|].
  rewrite !andb_false_r.
  index_cases; try reflexivity; try lia.
Qed.

Lemma setTorque_testbit (self : DRV8711) (v : Z) (w : World) (i : Z) :
  Z.testbit (torque (fst (DRV8711_.setTorque self v w))) i =
  if (0 <=? i) && (i <? 8) then Z.testbit v i
  else (8 <=? i) && (i <=? 10) && Z.testbit (torque self) i.
Proof.
  unfold_methods. cbn [fst torque set_torque].
  rewrite <- (Z.shiftl_0_r (to_uint8 v)).
  rewrite (testbit_field_update _ _ _ 0 8)
    by (try apply to_uint8_range; lia).
  rewrite testbit_mask_torque, Z.sub_0_r, testbit_to_uint8.
  index_cases; try reflexivity; try lia.
Qed.

(** X12.  For any argument, [setOffTime] leaves the argument modulo 256
    in OFF bits [7:0], keeps bit 8 (PWMMODE) and clears every bit above;
    an over-wide argument never reaches bit 8. *)
Theorem setOffTime_off_field :
  forall (self : DRV8711) (v : Z) (w : World),
    bits 7 0 (off (fst (DRV8711_.setOffTime self v w))) = v mod 2 ^ 8
    /\ Z.testbit (off (fst (DRV8711_.setOffTime self v w))) 8 =
         Z.testbit (off self) 8
    /\ (forall i, 9 <= i ->
          Z.testbit (off (fst (DRV8711_.setOffTime self v w))) i = false)
    /\ DRV8711_.setOffTime self v w =
         DRV8711_.setOffTime self (v mod 2 ^ 8) w.
Proof.
  intros self v w. split; [|split; [|split]].
  - apply bits_read; [lia | apply to_uint8_range |].
    intros i Hi. rewrite setOffTime_testbit, testbit_trunc, Z.sub_0_r by lia.
    index_cases; reflexivity.
  - rewrite setOffTime_testbit. reflexivity.
  - intros i Hi. rewrite setOffTime_testbit.
    destruct (Z.eqb_spec i 8); [lia|]. index_cases; reflexivity.
  - assert (E : to_uint8 (v mod 2 ^ 8) = to_uint8 v)
      by (unfold to_uint8; apply Z.mod_mod; rewrite pow2_8; lia).
    unfold DRV8711_.setOffTime. rewrite E. reflexivity.
Qed.

(** X13.  For any argument, [setTorque] leaves the argument modulo 256 in
    TORQUE bits [7:0], keeps bits [10:8] and clears every bit above; an
    over-wide argument never reaches bits [10:8]. *)
Theorem setTorque_any_argument :
  forall (self : DRV8711) (v : Z) (w : World),
    bits 7 0 (torque (fst (DRV8711_.setTorque self v w))) = v mod 2 ^ 8
    /\ bits 10 8 (torque (fst (DRV8711_.setTorque self v w))) =
         bits 10 8 (torque self)
    /\ (forall i, 11 <= i ->
          Z.testbit (torque (fst (DRV8711_.setTorque self v w))) i = false)
    /\ DRV8711_.setTorque self v w =
         DRV8711_.setTorque self (v mod 2 ^ 8) w.
Proof.
  intros self v w. split; [|split; [|split]].
  - apply bits_read; [lia | apply to_uint8_range |].
    intros i Hi. rewrite setTorque_testbit, testbit_trunc, Z.sub_0_r by lia.
    index_cases; reflexivity.
  - apply bits_ext; [lia|]. intros i Hi. rewrite setTorque_testbit.
    index_cases; reflexivity.
  - intros i Hi. rewrite setTorque_testbit. index_cases; reflexivity.
  - assert (E : to_uint8 (v mod 2 ^ 8) = to_uint8 v)
      by (unfold to_uint8; apply Z.mod_mod; rewrite pow2_8; lia).
    unfold DRV8711_.setTorque. rewrite E. reflexivity.
Qed.

(** ** How the field setters compose *)

Ltac case_bits :=
  repeat match goal with
         | |- context [Z.testbit ?a ?b] => destruct (Z.testbit a b)
         end;
  reflexivity.

(** X14.  [setStepMode] and [setGain] edit disjoint fields: called in
    either order they leave the same object. *)
Theorem setStepMode_setGain_commute :
  forall (self : DRV8711) (m g : Z) (w : World),
    fst ((s <- DRV8711_.setStepMode self m ;; DRV8711_.setGain s g) w) =
    fst ((s <- DRV8711_.setGain self g ;; DRV8711_.setStepMode s m) w).
Proof.
  intros self m g w. rewrite !run_bind.
  rewrite !setStepMode_run, !setGain_run. cbn [fst snd].
  unfold set_ctrl. cbn [ctrl torque off blank decay status driver].
  f_equal. apply Z.bits_inj'. intros i Hi.
  rewrite (testbit_field_update _ _ _ 8 2)
    by (try apply gainCode_range; lia).
  rewrite (testbit_field_update _ _ _ 3 4)
    by (try apply stepModeCode_range; lia).
  rewrite (testbit_field_update _ _ _ 3 4)
    by (try apply stepModeCode_range; lia).
  rewrite (testbit_field_update _ _ _ 8 2)
    by (try apply gainCode_range; lia).
  rewrite !testbit_mask_stepmode, !testbit_mask_gain.
  index_cases; try reflexivity; try lia; case_bits.
Qed.

Lemma setOffTime_run (self : DRV8711) (offTime : Z) (w : World) :
  DRV8711_.setOffTime self offTime w =
  (set_off self (Z.lor (Z.land (off self) 0x100) (to_uint8 offTime)),
   mkWorld
     (trace w ++
      write_transaction (ssPin (driver self))
        (Z.lor (Z.shiftl OFF 12)
           (to_uint16
              (Z.lor (Z.land (off self) 0x100) (to_uint8 offTime)))))
     (tl (miso w))).
Proof.
  unfold DRV8711_.setOffTime. rewrite flush_off_run.
  cbn [off set_off driver].
  rewrite write_word_OFF by apply to_uint16_range.
  reflexivity.
Qed.

(** X15.  The last call wins: a field setter called after the same setter
    leaves the object that the second call alone leaves (so calling a
    setter twice with one argument changes nothing the second time). *)
Theorem field_setters_last_wins :
  forall (self : DRV8711) (a b : Z) (w : World),
    fst ((s <- DRV8711_.setStepMode self a ;; DRV8711_.setStepMode s b) w) =
      fst (DRV8711_.setStepMode self b w)
    /\ fst ((s <- DRV8711_.setGain self a ;; DRV8711_.setGain s b) w) =
         fst (DRV8711_.setGain self b w)
    /\ fst ((s <- DRV8711_.setTorque self a ;; DRV8711_.setTorque s b) w) =
         fst (DRV8711_.setTorque self b w)
    /\ fst ((s <- DRV8711_.setOffTime self a ;; DRV8711_.setOffTime s b) w) =
         fst (DRV8711_.setOffTime self b w).
Proof.
  intros self a b w. rewrite !run_bind. split; [|split; [|split]].
  - rewrite !setStepMode_run. cbn [fst snd].
    unfold set_ctrl. cbn [ctrl torque off blank decay status driver].
    f_equal. apply Z.bits_inj'. intros i Hi.
    rewrite !(testbit_field_update _ _ _ 3 4)
      by (try apply stepModeCode_range; lia).
    rewrite !testbit_mask_stepmode.
    index_cases; try reflexivity; try lia; case_bits.
  - rewrite !setGain_run. cbn [fst snd].
    unfold set_ctrl. cbn [ctrl torque off blank decay status driver].
    f_equal. apply Z.bits_inj'. intros i Hi.
    rewrite !(testbit_field_update _ _ _ 8 2)
      by (try apply gainCode_range; lia).
    rewrite !testbit_mask_gain.
    index_cases; try reflexivity; try lia; case_bits.
  - rewrite !setTorque_run. cbn [fst snd].
    unfold set_torque. cbn [ctrl torque off blank decay status driver].
    f_equal. apply Z.bits_inj'. intros i Hi.
    rewrite <- (Z.shiftl_0_r (to_uint8 a)), <- (Z.shiftl_0_r (to_uint8 b)).
    rewrite !(testbit_field_update _ _ _ 0 8)
      by (try apply to_uint8_range; lia).
    rewrite !testbit_mask_torque.
    index_cases; try reflexivity; try lia; case_bits.
  - rewrite !setOffTime_run. cbn [fst snd].
    unfold set_off. cbn [ctrl torque off blank decay status driver].
    f_equal. apply Z.bits_inj'. intros i Hi.
    rewrite <- (Z.shiftl_0_r (to_uint8 a)), <- (Z.shiftl_0_r (to_uint8 b)).
    rewrite !(testbit_field_update _ _ _ 0 8)
      by (try apply to_uint8_range; lia).
    rewrite !testbit_mask_off.
    destruct (Z.eqb_spec i 8);
      index_cases; try reflexivity; try lia; case_bits.
Qed.

(** ** Reading the codes back *)

Lemma setStepMode_field (self : DRV8711) (m : Z) (w : World) :
  bits 6 3 (ctrl (fst (DRV8711_.setStepMode self m w))) =
  DRV8711_.stepModeCode (to_uint16 m).
Proof.
  apply bits_read; [lia | apply stepModeCode_range |].
  intros i Hi. rewrite setStepMode_testbit. index_cases; reflexivity.
Qed.

Lemma setGain_field (self : DRV8711) (g : Z) (w : World) :
  bits 9 8 (ctrl (fst (DRV8711_.setGain self g w))) =
  DRV8711_.gainCode (to_uint8 g).
Proof.
  apply bits_read; [lia | apply gainCode_range |].
  intros i Hi. rewrite setGain_testbit. index_cases; reflexivity.
Qed.

(** X16.  The code [setStepMode] stores is the base-2 logarithm of the
    step mode: for a 16-bit mode, two to the power of CTRL bits [6:3]
    gives the mode back exactly when the mode is one of the nine of the
    [stepMode] enum. *)
Theorem stepMode_code_is_log2 :
  forall (self : DRV8711) (m : Z) (w : World),
    is_uint16 m ->
    (2 ^ bits 6 3 (ctrl (fst (DRV8711_.setStepMode self m w))) = m
     <-> In m [1; 2; 4; 8; 16; 32; 64; 128; 256]).
Proof.
  intros self m w Hm. rewrite setStepMode_field, (to_uint16_id m Hm).
  unfold DRV8711_.stepModeCode, MicroStep1, MicroStep2, MicroStep4,
    MicroStep8, MicroStep16, MicroStep32, MicroStep64, MicroStep128,
    MicroStep256.
  repeat match goal with
         | |- context [?a =? ?b] =>
             destruct (Z.eqb_spec a b);
             [subst m; split; [intros _; simpl; tauto | reflexivity]|]
         end.
  split.
  - intros E. change (2 ^ 2) with 4 in E. lia.
  - simpl. intros H.
    repeat (destruct H as [H | H]; [lia|]). contradiction.
Qed.

Lemma stepMode_code_is_log2_witness :
  is_uint16 256 /\
  (2 ^ bits 6 3 (ctrl (fst (DRV8711_.setStepMode fresh 256 w0))) = 256
   <-> In 256 [1; 2; 4; 8; 16; 32; 64; 128; 256]).
Proof.
  assert (Hm : is_uint16 256) by (unfold is_uint16; rewrite pow2_16; lia).
  split; [exact Hm|].
  exact (stepMode_code_is_log2 fresh 256 w0 Hm).
Defined.

(** X17.  The code [setGain] stores counts the doublings of 5: for an
    8-bit gain, 5 times two to the power of CTRL bits [9:8] gives the gain
    back exactly when the gain is one of the four of the [isgain] enum. *)
Theorem gain_code_counts_doublings :
  forall (self : DRV8711) (g : Z) (w : World),
    is_uint8 g ->
    (5 * 2 ^ bits 9 8 (ctrl (fst (DRV8711_.setGain self g w))) = g
     <-> In g [5; 10; 20; 40]).
Proof.
  intros self g w Hg. rewrite setGain_field, (to_uint8_id g Hg).
  unfold DRV8711_.gainCode, Gain5, Gain10, Gain20, Gain40.
  repeat match goal with
         | |- context [?a =? ?b] =>
             destruct (Z.eqb_spec a b);
             [subst g; split; [intros _; simpl; tauto | reflexivity]|]
         end.
  split.
  - intros E. change (5 * 2 ^ 2) with 20 in E. lia.
  - simpl. intros H.
    repeat (destruct H as [H | H]; [lia|]). contradiction.
Qed.

Lemma gain_code_counts_doublings_witness :
  is_uint8 40 /\
  (5 * 2 ^ bits 9 8 (ctrl (fst (DRV8711_.setGain fresh 40 w0))) = 40
   <-> In 40 [5; 10; 20; 40]).
Proof.
  assert (Hg : is_uint8 40) by (unfold is_uint8; rewrite pow2_8; lia).
  split; [exact Hg|].
  exact (gain_code_counts_doublings fresh 40 w0 Hg).
Defined.

(** ** The chip-select pin *)

Lemma pins_app (s t : list BusEvent) : pins (s ++ t) = pins s ++ pins t.
Proof.
  induction s as [| e s IH]; simpl; [reflexivity|].
  destruct e; simpl; rewrite IH; reflexivity.
Qed.

Lemma calls_pins (cs : list Call) :
  forall (self : DRV8711) (w : World),
    no_init cs ->
    exists t,
      trace (snd (calls cs self w)) = trace w ++ t
      /\ Forall (eq (ssPin (driver self))) (pins t)
      /\ driver (fst (calls cs self w)) = driver self.
Proof.
  induction cs as [| c cs IH]; intros self w Hno.
  - exists []. cbn. rewrite app_nil_r. repeat split. constructor.
  - cbn [calls]. rewrite run_bind.
    pose proof (call_world c self w) as Hc.
    assert (Hno' : no_init cs)
      by (intros p Hin; apply (Hno p); right; exact Hin).
    destruct (target c) as [r|] eqn:Ht.
    + destruct Hc as [Hw Hd].
      destruct (IH (fst (call c self w)) (snd (call c self w)) Hno')
        as (t & Htr & Hall & Hdrv).
      exists (write_transaction (ssPin (driver self))
                (write_word r (shadow r (fst (call c self w)))) ++ t).
      split; [|split].
      * rewrite Htr, Hw. cbn [trace]. now rewrite app_assoc.
      * rewrite pins_app. apply Forall_app. split.
        -- cbn. repeat constructor.
        -- rewrite Hd in Hall. exact Hall.
      * rewrite Hdrv. exact Hd.
    + destruct c; cbn [target] in Ht; try discriminate Ht.
      exfalso. apply (Hno slaveSelectPin). left. reflexivity.
Qed.

(** X18.  After [init p], whatever setters follow, every chip-select
    event names pin [p mod 256] and the object keeps that pin: the pin
    changes in [init] only. *)
Theorem calls_use_bound_pin :
  forall (cs : list Call) (self : DRV8711) (p : Z) (w : World),
    no_init cs ->
    exists t,
      trace (snd ((s <- DRV8711_.init self p ;; calls cs s) w)) =
        trace w ++ t
      /\ Forall (eq (p mod 2 ^ 8)) (pins t)
      /\ ssPin (driver (fst ((s <- DRV8711_.init self p ;; calls cs s) w)))
         = p mod 2 ^ 8.
Proof.
  intros cs self p w Hno. rewrite run_bind, init_run. cbn [fst snd].
  destruct (calls_pins cs (set_driver self (mkDRV8711SPI (to_uint8 p)))
              (mkWorld (trace w ++ [DigitalWrite (to_uint8 p) LOW;
                                    PinModeOutput (to_uint8 p)])
                       (miso w)) Hno)
    as (t & Htr & Hall & Hdrv).
  exists ([DigitalWrite (to_uint8 p) LOW; PinModeOutput (to_uint8 p)] ++ t).
  split; [|split].
  - rewrite Htr. cbn [trace]. now rewrite <- app_assoc.
  - rewrite pins_app. apply Forall_app. split.
    + cbn. repeat constructor.
    + exact Hall.
  - rewrite Hdrv. reflexivity.
Qed.

Lemma calls_use_bound_pin_witness :
  no_init [CallSetStepMode 16; CallEnableDriver] /\
  exists t,
    trace (snd ((s <- DRV8711_.init fresh 266 ;;
                 calls [CallSetStepMode 16; CallEnableDriver] s) w0)) =
      trace w0 ++ t
    /\ Forall (eq (266 mod 2 ^ 8)) (pins t)
    /\ ssPin (driver (fst ((s <- DRV8711_.init fresh 266 ;;
                            calls [CallSetStepMode 16; CallEnableDriver] s)
                             w0)))
       = 266 mod 2 ^ 8.
Proof.
  assert (Hno : no_init [CallSetStepMode 16; CallEnableDriver]).
  { intros p. simpl. intros [H | [H | H]]; try discriminate H; exact H. }
  split; [exact Hno|].
  exact (calls_use_bound_pin [CallSetStepMode 16; CallEnableDriver]
           fresh 266 w0 Hno).
Defined.

(** ** The toggles on the whole object *)

Lemma lxor_twice_uint16 (x y : Z) :
  is_uint16 x -> to_uint16 (Z.lxor (to_uint16 (Z.lxor x y)) y) = x.
Proof.
  intros Hx. apply Z.bits_inj'. intros i Hi.
  rewrite testbit_to_uint16, Z.lxor_spec, testbit_to_uint16, Z.lxor_spec.
  destruct (Z.ltb_spec i 16) as [Hlt | Hge]; cbn [andb].
  - destruct (Z.testbit x i), (Z.testbit y i); reflexivity.
  - symmetry. now apply uint16_high_bit.
Qed.

(** X19.  Two [flipDirection] calls, or two [setPWMMode] calls with any
    arguments, give back the object they started from: every shadow, not
    only the toggled bit, is as before. *)
Theorem toggles_restore_object :
  forall (self : DRV8711) (m1 m2 : Z) (w : World),
    is_uint16 (ctrl self) -> is_uint16 (off self) ->
    fst ((s <- DRV8711_.flipDirection self ;; DRV8711_.flipDirection s) w)
      = self
    /\ fst ((s <- DRV8711_.setPWMMode self m1 ;; DRV8711_.setPWMMode s m2) w)
       = self.
Proof.
  intros self m1 m2 w Hc Ho. rewrite !run_bind.
  rewrite !flipDirection_run, !setPWMMode_run. cbn [fst snd].
  unfold set_ctrl, set_off. cbn [ctrl torque off blank decay status driver].
  rewrite (lxor_twice_uint16 _ _ Hc), (lxor_twice_uint16 _ _ Ho).
  destruct self; split; reflexivity.
Qed.

Lemma toggles_restore_object_witness :
  is_uint16 (ctrl fresh) /\ is_uint16 (off fresh) /\
  fst ((s <- DRV8711_.flipDirection fresh ;; DRV8711_.flipDirection s) w0)
    = fresh.
Proof.
  assert (Hc : is_uint16 (ctrl fresh))
    by (unfold is_uint16; rewrite pow2_16; cbn; lia).
  assert (Ho : is_uint16 (off fresh))
    by (unfold is_uint16; rewrite pow2_16; cbn; lia).
  split; [exact Hc|]. split; [exact Ho|].
  exact (proj1 (toggles_restore_object fresh 0 1 w0 Hc Ho)).
Defined.
